(** * The BibTeX-to-HTML pipeline of the homepage, and its specification

    The repository holds three copies of the script that fetches
    [bibliography.bib], parses it and renders the publication list:

    - [LineParser]        src/bibliography.js: line-based parser, no year
                          filter, no sorting, no DOI link;
    - [LineParserCutoff]  src/unnamed/part_000, lines 118-203: the same
                          line-based parser with a year cutoff and a sort;
    - [SplitParser]       src/unnamed/part_000, lines 204-273: the parser
                          that splits the text at every [@], lower-cases
                          field names and guards every optional value.

    The algorithm of the specification (split at [@], lower-cased names,
    quotes stripped, [>=] cutoff) is the one of [SplitParser]; the claims
    are settled on that copy, and the places where the two line-based
    copies behave differently by design are recorded as remarks.  Where
    they throw on an access that [SplitParser] guards, the theorem of C3
    evaluates them.

    JavaScript strings are modelled as sequences of 8-bit code units
    (the Latin-1 range of UTF-16); [undefined] is [None]; a method call on
    [undefined] raises [TypeError]. *)

From Stdlib Require Import ZArith QArith Qround String Ascii List Lia Permutation Sorted.
From stdpp Require Import base strings gmap list.

Local Open Scope string_scope.

(** ** JavaScript primitives used by the scripts *)

Module JS.

(** *** Errors *)

Inductive error : Type := TypeError.

Inductive result (A : Type) : Type :=
| Ok (a : A)
| Throw (e : error).
Arguments Ok {A} a.
Arguments Throw {A} e.

#[global] Instance result_ret : MRet result := fun A a => Ok a.
#[global] Instance result_bind : MBind result :=
  fun A B f c => match c with Ok a => f a | Throw e => Throw e end.

(** A method call [recv.m(...)]: [recv] must not be [undefined]. *)
Definition call {A : Type} (recv : option string) (m : string -> A) : result A :=
  match recv with
  | Some s => Ok (m s)
  | None => Throw TypeError
  end.

(** *** Characters *)

Definition code (c : ascii) : N := N_of_ascii c.

Definition nl : string := String "010"%char EmptyString.
Definition dq : string := String "034"%char EmptyString.

(** WhiteSpace and LineTerminator code units below 256. *)
Definition isWhiteSpace (c : ascii) : bool :=
  ((9 <=? code c) && (code c <=? 13) || (code c =? 32) || (code c =? 160))%N.

Definition lowerChar (c : ascii) : ascii :=
  let n := code c in
  if ((65 <=? n) && (n <=? 90)
      || (192 <=? n) && (n <=? 222) && negb (n =? 215))%N
  then ascii_of_N (n + 32) else c.

(** Equality of characters under the [i] flag of a regular expression. *)
Definition eqIgnoreCase (p c : ascii) : bool :=
  Ascii.eqb (lowerChar p) (lowerChar c).

(** *** Strings *)

Fixpoint trimStart (s : string) : string :=
  match s with
  | EmptyString => EmptyString
  | String c s' => if isWhiteSpace c then trimStart s' else s
  end.

Fixpoint trimEnd (s : string) : string :=
  match s with
  | EmptyString => EmptyString
  | String c s' =>
      match trimEnd s' with
      | EmptyString => if isWhiteSpace c then EmptyString else String c EmptyString
      | t => String c t
      end
  end.

Definition trim (s : string) : string := trimEnd (trimStart s).

Fixpoint toLowerCase (s : string) : string :=
  match s with
  | EmptyString => EmptyString
  | String c s' => String (lowerChar c) (toLowerCase s')
  end.

(** [s.includes(c)] for a one-character [c]. *)
Fixpoint includes (c : ascii) (s : string) : bool :=
  match s with
  | EmptyString => false
  | String d s' => Ascii.eqb d c || includes c s'
  end.

(** [s.split(c)] for a one-character separator: never empty. *)
Fixpoint split (sep : ascii) (s : string) : list string :=
  match s with
  | EmptyString => [EmptyString]
  | String c s' =>
      if Ascii.eqb c sep then EmptyString :: split sep s'
      else match split sep s' with
           | h :: t => String c h :: t
           | [] => [String c EmptyString]
           end
  end.

(** [s.startsWith(c)] and [s.substring(1)]. *)
Definition startsWith (c : ascii) (s : string) : bool :=
  match s with
  | String d _ => Ascii.eqb d c
  | EmptyString => false
  end.

Definition substring1 (s : string) : string :=
  match s with
  | String _ s' => s'
  | EmptyString => EmptyString
  end.

(** [s.replace(c, '')] with a string pattern: the first occurrence only. *)
Fixpoint removeFirst (c : ascii) (s : string) : string :=
  match s with
  | EmptyString => EmptyString
  | String d s' => if Ascii.eqb d c then s' else String d (removeFirst c s')
  end.

(** [s.replace(/[...]/g, '')]: every character of the class is removed. *)
Fixpoint removeAll (cls : ascii -> bool) (s : string) : string :=
  match s with
  | EmptyString => EmptyString
  | String d s' => if cls d then removeAll cls s' else String d (removeAll cls s')
  end.

(** [s.replace(/,$/, '')]: one comma at the very end is removed. *)
Fixpoint removeTrailingComma (s : string) : string :=
  match s with
  | EmptyString => EmptyString
  | String c EmptyString => if Ascii.eqb c ","%char then EmptyString else s
  | String c s' => String c (removeTrailingComma s')
  end.

Fixpoint prefixBy (eqc : ascii -> ascii -> bool) (pat s : string) : bool :=
  match pat, s with
  | EmptyString, _ => true
  | String p pat', String c s' => eqc p c && prefixBy eqc pat' s'
  | String _ _, EmptyString => false
  end.

(** [s.replace(/pat/g, rep)] for a literal, non-empty [pat]: matches are
    found left to right and do not overlap.  [skip] counts the characters
    of the current match that are still to be passed over. *)
Fixpoint replaceAllFrom (eqc : ascii -> ascii -> bool) (pat rep : string)
    (skip : nat) (s : string) : string :=
  match s with
  | EmptyString => EmptyString
  | String c s' =>
      match skip with
      | S k => replaceAllFrom eqc pat rep k s'
      | O =>
          if prefixBy eqc pat s
          then rep +:+ replaceAllFrom eqc pat rep (Nat.pred (String.length pat)) s'
          else String c (replaceAllFrom eqc pat rep 0 s')
      end
  end.

Definition replaceAll (eqc : ascii -> ascii -> bool) (pat rep s : string) : string :=
  replaceAllFrom eqc pat rep 0 s.

(** [parts.join('')]. *)
Fixpoint join (parts : list string) : string :=
  match parts with
  | [] => EmptyString
  | p :: ps => p +:+ join ps
  end.

(** [hay.includes(needle)] for strings. *)
Fixpoint includesStr (needle hay : string) : bool :=
  prefixBy Ascii.eqb needle hay
  || match hay with
     | EmptyString => false
     | String _ hay' => includesStr needle hay'
     end.

(** *** Values that may be [undefined] *)

Definition truthy (v : option string) : bool :=
  match v with
  | Some s => negb (String.eqb s EmptyString)
  | None => false
  end.

(** [a || b]. *)
Definition orElse (a b : option string) : option string :=
  if truthy a then a else b.

(** [`${v}`]. *)
Definition toStr (v : option string) : string :=
  match v with
  | Some s => s
  | None => "undefined"
  end.

(** *** Objects with string-valued properties

    [entry[name] = value] creates or overwrites an own property, except for
    the name [__proto__]: that one is an accessor of [Object.prototype]
    whose setter ignores a value that is neither an object nor [null].
    The scripts read the properties [year], [author], [title], [journal],
    [booktitle], [publisher], [howpublished] and [doi] only, none of which
    [Object.prototype] defines, so a read is a lookup among the own
    properties of the record. *)

Definition setProp (o : gmap string string) (name value : string)
    : gmap string string :=
  if String.eqb name "__proto__" then o else <[name := value]> o.

Definition getProp (o : gmap string string) (name : string) : option string :=
  o !! name.

(** [Object.keys(o).length !== 0]. *)
Definition hasKeys (o : gmap string string) : bool :=
  negb (bool_decide (o = ∅)).

(** [c] is one of the characters of [cls]: a character class [[...]]. *)
Definition inClass (cls : string) (c : ascii) : bool := includes c cls.

(** [xs.forEach(x => ...)] where the body updates the state [s] and may
    throw; [xs.map(f)] where [f] may throw. *)
Fixpoint forEach {S A : Type} (body : S -> A -> result S) (xs : list A) (s : S)
    : result S :=
  match xs with
  | [] => Ok s
  | x :: xs' => s' ← body s x; forEach body xs' s'
  end.

Fixpoint mapArray {A B : Type} (f : A -> result B) (xs : list A) : result (list B) :=
  match xs with
  | [] => Ok []
  | x :: xs' => y ← f x; ys ← mapArray f xs'; Ok (y :: ys)
  end.

(** *** Numbers

    A Number is [NaN], an infinity or a finite value, kept exact here.
    A double represents every integer below 2^53 exactly, so on years the
    exact value and the double agree; rounding and overflow of longer
    literals are not modelled, and the ordering theorems below are stated
    for years of at most 15 digits. *)

Local Open Scope Z_scope.

Inductive number : Type :=
| NaN
| Fin (q : Q)
| PosInf
| NegInf.

Definition ofZ (z : Z) : number := Fin (inject_Z z).

(** [a - b]. *)
Definition sub (a b : number) : number :=
  match a, b with
  | NaN, _ | _, NaN => NaN
  | Fin x, Fin y => Fin (x - y)
  | PosInf, PosInf | NegInf, NegInf => NaN
  | PosInf, _ | _, NegInf => PosInf
  | NegInf, _ | _, PosInf => NegInf
  end.

(** [a > b] and [a >= b]: false as soon as one side is [NaN]. *)
Definition gt (a b : number) : bool :=
  match a, b with
  | NaN, _ | _, NaN => false
  | Fin x, Fin y => negb (Qle_bool x y)
  | PosInf, PosInf | NegInf, NegInf => false
  | PosInf, _ | _, NegInf => true
  | NegInf, _ | _, PosInf => false
  end.

Definition ge (a b : number) : bool :=
  match a, b with
  | NaN, _ | _, NaN => false
  | Fin x, Fin y => Qle_bool y x
  | PosInf, _ | _, NegInf => true
  | NegInf, _ | _, PosInf => false
  end.

Definition digitValue (radix : Z) (c : ascii) : option Z :=
  let n := Z.of_N (code c) in
  let v := if (48 <=? n) && (n <=? 57) then n - 48
           else if (97 <=? n) && (n <=? 122) then n - 87
           else if (65 <=? n) && (n <=? 90) then n - 55
           else radix in
  if v <? radix then Some v else None.

(** The longest prefix of digits of the radix, and what follows it. *)
Fixpoint spanDigits (radix : Z) (s : string) : list Z * string :=
  match s with
  | EmptyString => ([], EmptyString)
  | String c s' =>
      match digitValue radix c with
      | Some d => let (ds, rest) := spanDigits radix s' in (d :: ds, rest)
      | None => ([], s)
      end
  end.

Definition valueOf (radix : Z) (ds : list Z) : Z :=
  fold_left (fun acc d => acc * radix + d) ds 0.

Definition isChar (a b : ascii) (c : ascii) : bool :=
  Ascii.eqb c a || Ascii.eqb c b.

(** [parseInt(s)] with no radix argument. *)
Definition parseInt (s : string) : number :=
  let s0 := trimStart s in
  let '(sign, s1) :=
    match s0 with
    | String c r =>
        if Ascii.eqb c "-"%char then (-1, r)
        else if Ascii.eqb c "+"%char then (1, r)
        else (1, s0)
    | EmptyString => (1, s0)
    end in
  let '(radix, s2) :=
    match s1 with
    | String z (String x r) =>
        if Ascii.eqb z "0"%char && isChar "x" "X" x then (16, r) else (10, s1)
    | _ => (10, s1)
    end in
  match fst (spanDigits radix s2) with
  | [] => NaN
  | ds => ofZ (sign * valueOf radix ds)
  end.

(** [0b...], [0o...], [0x...]: no sign, at least one digit, nothing after. *)
Definition nonDecimalLiteral (t : string) : option Z :=
  match t with
  | String z (String x r) =>
      if Ascii.eqb z "0"%char then
        let radix := if isChar "b" "B" x then 2
                     else if isChar "o" "O" x then 8
                     else if isChar "x" "X" x then 16
                     else 0 in
        match spanDigits radix r with
        | (d :: ds, EmptyString) => Some (valueOf radix (d :: ds))
        | _ => None
        end
      else None
  | _ => None
  end.

(** The exponent part of a decimal literal, which must end the string. *)
Definition exponentPart (r : string) : option Z :=
  match r with
  | EmptyString => Some 0
  | String e r1 =>
      if isChar "e" "E" e then
        let '(sign, r2) :=
          match r1 with
          | String c r' =>
              if Ascii.eqb c "-"%char then (-1, r')
              else if Ascii.eqb c "+"%char then (1, r')
              else (1, r1)
          | EmptyString => (1, r1)
          end in
        match spanDigits 10 r2 with
        | (d :: ds, EmptyString) => Some (sign * valueOf 10 (d :: ds))
        | _ => None
        end
      else None
  end.

(** [Infinity] or digits, an optional fraction and an optional exponent. *)
Definition unsignedDecimalLiteral (u : string) : number :=
  if String.eqb u "Infinity" then PosInf else
  let '(ip, r1) := spanDigits 10 u in
  let '(fp, r2) :=
    match r1 with
    | String c r => if Ascii.eqb c "."%char then spanDigits 10 r else ([], r1)
    | EmptyString => ([], r1)
    end in
  match ip, fp with
  | [], [] => NaN
  | _, _ =>
      match exponentPart r2 with
      | Some e =>
          Fin ((inject_Z (valueOf 10 ip)
                + inject_Z (valueOf 10 fp) / inject_Z (10 ^ Z.of_nat (length fp)))
               * Qpower (inject_Z 10) e)
      | None => NaN
      end
  end.

Definition negate (v : number) : number :=
  match v with
  | NaN => NaN
  | Fin q => Fin (- q)
  | PosInf => NegInf
  | NegInf => PosInf
  end.

(** [Number(s)] for a string: StringToNumber. *)
Definition StringToNumber (s : string) : number :=
  match trim s with
  | EmptyString => ofZ 0
  | String c r as t =>
      match nonDecimalLiteral t with
      | Some z => ofZ z
      | None =>
          if Ascii.eqb c "-"%char then negate (unsignedDecimalLiteral r)
          else if Ascii.eqb c "+"%char then unsignedDecimalLiteral r
          else unsignedDecimalLiteral t
      end
  end.

(** [Number(v)] for a string or [undefined]. *)
Definition ToNumber (v : option string) : number :=
  match v with
  | Some s => StringToNumber s
  | None => NaN
  end.

(** *** [Array.prototype.sort] with a comparison function

    The sort is stable.  [comparefn x y > 0] puts [x] after [y]; a result
    of [NaN] counts as [+0].  For a consistent comparison function every
    stable sort returns the same array; the insertion sort below is that
    function.  For an inconsistent one (a year that is not a number
    compares as equal to every other) the language leaves the order to
    the implementation, of which this is one; what is proved about the
    order assumes years that are numbers.  The array is sorted in place:
    the result is its new content. *)

Section Sort.
Context {A : Type} (comparefn : A -> A -> number).

Definition sortsAfter (x y : A) : bool := gt (comparefn x y) (ofZ 0).

Fixpoint insertSorted (x : A) (l : list A) : list A :=
  match l with
  | [] => [x]
  | y :: l' => if sortsAfter x y then y :: insertSorted x l' else x :: l
  end.

Definition sort (l : list A) : list A := foldr insertSorted [] l.
End Sort.

End JS.

Import JS.

(** What the page shows once the promise chain has settled: the fragment
    put into [#bibtexEntries], or nothing but the message of the [catch]
    handler. *)
Inductive outcome : Type :=
| Displayed (html : string)
| ErrorLogged.

(** ** src/bibliography.js *)

Module LineParser.

(** Lines 33-36: the record opened by a line that starts with [@]. *)
Definition openEntry (line : string) : result (gmap string string) :=
  let parts := split "{" (substring1 line) in
  let type := parts !! 0%nat in
  let key := parts !! 1%nat in
  t ← call type trim;
  k ← call key (fun k => removeAll (inClass ",") (trim k));
  Ok (setProp (setProp ∅ "type" t) "key" k).

(** Lines 39-40: a field line; the name is trimmed, not lower-cased. *)
Definition readField (currentEntry : gmap string string) (line : string)
    : result (gmap string string) :=
  let parts := split "=" line in
  let key := parts !! 0%nat in
  let value := parts !! 1%nat in
  name ← call key trim;
  val ← call value (fun v => removeAll (inClass "{},") (trim v));
  Ok (setProp currentEntry name val).

(** The body of [lines.forEach], lines 26-42, on the pair of [entries] and
    [currentEntry]. *)
Definition step (st : list (gmap string string) * gmap string string)
    (line0 : string) : result (list (gmap string string) * gmap string string) :=
  let '(entries, currentEntry) := st in
  let line := trim line0 in
  if startsWith "@" line then
    let entries' := if hasKeys currentEntry
                    then (entries ++ [currentEntry])%list else entries in
    e ← openEntry line;
    Ok (entries', e)
  else if includes "=" line then
    e ← readField currentEntry line;
    Ok (entries, e)
  else Ok st.

Definition parseBibtex (bibtex : string) : result (list (gmap string string)) :=
  st ← forEach step (split "010" bibtex) ([], ∅);
  let '(entries, currentEntry) := st in
  Ok (if hasKeys currentEntry then (entries ++ [currentEntry])%list else entries).

Definition source (entry : gmap string string) : option string :=
  orElse (orElse (orElse (getProp entry "journal") (getProp entry "booktitle"))
                 (getProp entry "publisher"))
         (getProp entry "howpublished").

(** The body of [entries.map], lines 55-63. *)
Definition formatEntry (entry : gmap string string) : string :=
  nl +:+ "      <div class=" +:+ dq +:+ "entry" +:+ dq +:+ ">"
  +:+ nl +:+ "        <p>"
  +:+ nl +:+ "        " +:+ toStr (getProp entry "author") +:+ ","
  +:+ nl +:+ "        <i>" +:+ dq +:+ toStr (getProp entry "title") +:+ dq +:+ "</i>"
  +:+ nl +:+ "        " +:+ toStr (source entry) +:+ ", " +:+ toStr (getProp entry "year")
  +:+ nl +:+ "        </p>"
  +:+ nl +:+ "      </div>"
  +:+ nl +:+ "    ".

(** The array is left as it is; it is returned with the fragment so that
    the three copies have one signature. *)
Definition renderHTML (entries : list (gmap string string))
    : result (string * list (gmap string string)) :=
  let html := join (map formatEntry entries) in
  Ok (nl +:+ "    <html>"
      +:+ nl +:+ "      <head>"
      +:+ nl +:+ "        <title>BibTeX Entries</title>"
      +:+ nl +:+ "      </head>"
      +:+ nl +:+ "      <body>"
      +:+ nl +:+ "        " +:+ html
      +:+ nl +:+ "      </body>"
      +:+ nl +:+ "    </html>"
      +:+ nl +:+ "  ", entries).

Definition main (response : option string) : outcome :=
  match response with
  | None => ErrorLogged
  | Some bibtex =>
      match entries ← parseBibtex bibtex; renderHTML entries with
      | Ok (html, _) => Displayed html
      | Throw _ => ErrorLogged
      end
  end.

End LineParser.

(** ** src/unnamed/part_000, lines 118-203 *)

Module LineParserCutoff.

(** Lines 145-169.  The cutoff of lines 152-158 is applied when the next
    [@] line closes the current record. *)
Definition step (currentYear : Z)
    (st : list (gmap string string) * gmap string string)
    (line0 : string) : result (list (gmap string string) * gmap string string) :=
  let '(entries, currentEntry) := st in
  let line := trim line0 in
  if startsWith "@" line then
    let lim_year := (currentYear - 3)%Z in
    let entries' :=
      if hasKeys currentEntry
         && gt (ToNumber (getProp currentEntry "year")) (ofZ lim_year)
      then (entries ++ [currentEntry])%list else entries in
    e ← LineParser.openEntry line;
    Ok (entries', e)
  else if includes "=" line then
    e ← LineParser.readField currentEntry line;
    Ok (entries, e)
  else Ok st.

(** Lines 172-175 push the last record without looking at its year. *)
Definition parseBibtex (currentYear : Z) (bibtex : string)
    : result (list (gmap string string)) :=
  st ← forEach (step currentYear) (split "010" bibtex) ([], ∅);
  let '(entries, currentEntry) := st in
  Ok (if hasKeys currentEntry then (entries ++ [currentEntry])%list else entries).

(** [(a, b) => b.year - a.year], line 182. *)
Definition compareYears (a b : gmap string string) : number :=
  sub (ToNumber (getProp b "year")) (ToNumber (getProp a "year")).

(** The body of [entries.map], lines 184-197. *)
Definition formatEntry (entry : gmap string string) : result string :=
  let doiLink := if truthy (getProp entry "doi")
                 then "<a href=" +:+ dq +:+ "https://doi.org/"
                      +:+ toStr (getProp entry "doi") +:+ dq +:+ ">"
                      +:+ toStr (getProp entry "doi") +:+ "</a>"
                 else EmptyString in
  author ← call (getProp entry "author") (replaceAll Ascii.eqb " and " ", ");
  Ok (nl +:+ "      <div class=" +:+ dq +:+ "entry" +:+ dq +:+ ">"
      +:+ nl +:+ "        <p>"
      +:+ nl +:+ "        " +:+ author +:+ ","
      +:+ nl +:+ "        <i>" +:+ dq +:+ toStr (getProp entry "title") +:+ dq +:+ "</i>"
      +:+ nl +:+ "        " +:+ toStr (LineParser.source entry) +:+ ", "
      +:+ toStr (getProp entry "year")
      +:+ nl +:+ "        " +:+ doiLink
      +:+ nl +:+ "        </p>"
      +:+ nl +:+ "      </div>"
      +:+ nl +:+ "    ").

Definition renderHTML (entries : list (gmap string string))
    : result (string * list (gmap string string)) :=
  let entries' := sort compareYears entries in
  blocks ← mapArray formatEntry entries';
  Ok (nl +:+ "        " +:+ join blocks +:+ nl +:+ "  ", entries').

Definition main (currentYear : Z) (response : option string) : outcome :=
  match response with
  | None => ErrorLogged
  | Some bibtex =>
      match entries ← parseBibtex currentYear bibtex; renderHTML entries with
      | Ok (html, _) => Displayed html
      | Throw _ => ErrorLogged
      end
  end.

End LineParserCutoff.

(** ** src/unnamed/part_000, lines 204-273 *)

Module SplitParser.

(** The object literal of lines 230-235, from the first line of a segment. *)
Definition entryOfHeader (typeAndKey : option string) : result (gmap string string) :=
  parts ← call typeAndKey (split "{");
  let type := parts !! 0%nat in
  let key := parts !! 1%nat in
  t ← call type trim;
  k ← (if truthy key
       then call key (fun k => trim (removeFirst "," k))
       else Ok EmptyString);
  Ok (<["key" := k]> (<["type" := t]> ∅)).

(** Line 242: every brace and double quote is removed, then one comma at
    the very end, then the surrounding white space. *)
Definition stripValue (v : string) : string :=
  trim (removeTrailingComma (removeAll (inClass ("{}" +:+ dq)) v)).

(** The body of [fields.forEach], lines 237-245. *)
Definition readField (entry : gmap string string) (line0 : string)
    : result (gmap string string) :=
  let line := trim line0 in
  if includes "=" line then
    let parts := split "=" line in
    let k := parts !! 0%nat in
    let v := parts !! 1%nat in
    field ← call k (fun k => toLowerCase (trim k));
    value ← call v stripValue;
    Ok (setProp entry field value)
  else Ok entry.

(** The record built for one segment, lines 230-245. *)
Definition parseEntry (raw : string) : result (gmap string string) :=
  let lines := split "010" raw in
  let typeAndKey := lines !! 0%nat in
  let fields := drop 1 lines in
  entry ← entryOfHeader typeAndKey;
  forEach readField fields entry.

(** [entry.year && parseInt(entry.year) >= limYear], line 248. *)
Definition recent (limYear : Z) (entry : gmap string string) : bool :=
  truthy (getProp entry "year")
  && match getProp entry "year" with
     | Some y => ge (parseInt y) (ofZ limYear)
     | None => false
     end.

(** [bibtex.split('@').slice(1)], line 224. *)
Definition rawEntries (bibtex : string) : list string :=
  drop 1 (split "@" bibtex).

(** [currentYear] is [new Date().getFullYear()], read inside the parser. *)
Definition parseBibtex (currentYear : Z) (bibtex : string)
    : result (list (gmap string string)) :=
  let limYear := (currentYear - 3)%Z in
  forEach (fun entries raw =>
             entry ← parseEntry raw;
             Ok (if recent limYear entry then (entries ++ [entry])%list else entries))
          (rawEntries bibtex) [].

(** [(a, b) => (b.year || 0) - (a.year || 0)], line 258. *)
Definition yearOrZero (entry : gmap string string) : number :=
  if truthy (getProp entry "year") then ToNumber (getProp entry "year") else ofZ 0.

Definition compareYears (a b : gmap string string) : number :=
  sub (yearOrZero b) (yearOrZero a).

(** The body of [entries.map], lines 260-271. *)
Definition formatEntry (entry : gmap string string) : result string :=
  author ← (if truthy (getProp entry "author")
            then call (getProp entry "author") (replaceAll eqIgnoreCase " and " ", ")
            else Ok "Unknown Author");
  let title := if truthy (getProp entry "title")
               then "<i>" +:+ dq +:+ toStr (getProp entry "title") +:+ dq +:+ "</i>"
               else "Untitled" in
  let source := orElse (orElse (orElse (orElse (getProp entry "journal")
                                               (getProp entry "booktitle"))
                                       (getProp entry "publisher"))
                               (getProp entry "howpublished"))
                       (Some EmptyString) in
  let doiLink := if truthy (getProp entry "doi")
                 then "<a href=" +:+ dq +:+ "https://doi.org/"
                      +:+ toStr (getProp entry "doi") +:+ dq
                      +:+ " target=" +:+ dq +:+ "_blank" +:+ dq +:+ ">"
                      +:+ toStr (getProp entry "doi") +:+ "</a>"
                 else EmptyString in
  Ok (nl +:+ "      <div class=" +:+ dq +:+ "entry mb-2" +:+ dq +:+ ">"
      +:+ nl +:+ "        <p>"
      +:+ nl +:+ "          " +:+ author +:+ ", " +:+ title +:+ ". "
      +:+ toStr source +:+ ", "
      +:+ toStr (orElse (getProp entry "year") (Some EmptyString)) +:+ ". "
      +:+ doiLink
      +:+ nl +:+ "        </p>"
      +:+ nl +:+ "      </div>"
      +:+ nl +:+ "    ").

(** [renderHTML] sorts the array it is given in place: the result is the
    fragment together with the content of the array afterwards. *)
Definition renderHTML (entries : list (gmap string string))
    : result (string * list (gmap string string)) :=
  let entries' := sort compareYears entries in
  blocks ← mapArray formatEntry entries';
  Ok (join blocks, entries').

(** The promise chain of lines 208-219; [response] is [None] when the
    fetch fails. *)
Definition main (currentYear : Z) (response : option string) : outcome :=
  match response with
  | None => ErrorLogged
  | Some bibtex =>
      match entries ← parseBibtex currentYear bibtex; renderHTML entries with
      | Ok (html, _) => Displayed html
      | Throw _ => ErrorLogged
      end
  end.

End SplitParser.

(** ** Vocabulary of the specification *)

(** The text to the left, and to the right, of the first [c] of [s]. *)
Fixpoint beforeFirst (c : ascii) (s : string) : string :=
  match s with
  | EmptyString => EmptyString
  | String d s' => if Ascii.eqb d c then EmptyString else String d (beforeFirst c s')
  end.

Fixpoint afterFirst (c : ascii) (s : string) : string :=
  match s with
  | EmptyString => EmptyString
  | String d s' => if Ascii.eqb d c then s' else afterFirst c s'
  end.

(** [needle] occurs somewhere in [hay]. *)
Definition occursIn (needle hay : string) : Prop :=
  exists pre post, hay = pre +:+ needle +:+ post.

Definition isDigit (c : ascii) : bool :=
  (48 <=? code c)%N && (code c <=? 57)%N.

Fixpoint allDigits (s : string) : bool :=
  match s with
  | EmptyString => true
  | String c s' => isDigit c && allDigits s'
  end.

(** The number written by a string of decimal digits. *)
Fixpoint decimalFrom (acc : Z) (s : string) : Z :=
  match s with
  | EmptyString => acc
  | String c s' => decimalFrom (acc * 10 + (Z.of_N (code c) - 48)) s'
  end.

Definition decimal (s : string) : Z := decimalFrom 0 s.

(** A well-formed 4-digit year. *)
Definition fourDigits (s : string) : Prop :=
  String.length s = 4%nat /\ allDigits s = true.

(** The year of a record is missing, empty, or a decimal number of at most
    15 digits; the number it stands for, 0 when there is none. *)
Definition plainYear (entry : gmap string string) : Prop :=
  match getProp entry "year" with
  | Some y => allDigits y = true /\ (String.length y <= 15)%nat
  | None => True
  end.

Definition numericYear (entry : gmap string string) : Z :=
  match getProp entry "year" with
  | Some y => decimal y
  | None => 0
  end.

(** A list in descending order of [key]. *)
Definition descendingBy {A : Type} (key : A -> Z) : list A -> Prop :=
  StronglySorted (fun a b => (key b <= key a)%Z).

(** The elements of [l] whose key is [n], in the order of [l]. *)
Definition withKey {A : Type} (key : A -> Z) (n : Z) (l : list A) : list A :=
  List.filter (fun a => (key a =? n)%Z) l.

(** The first line of a segment and the lines after it. *)
Definition headerLine (raw : string) : string := beforeFirst "010" raw.
Definition bodyLines (raw : string) : list string := drop 1 (split "010" raw).

(** The name under which a body line stores its value, if it stores one. *)
Definition fieldName (line : string) : option string :=
  if includes "=" (trim line)
  then Some (toLowerCase (trim (beforeFirst "=" (trim line))))
  else None.

(** [s] ends with the character [c]. *)
Fixpoint endsWith (c : ascii) (s : string) : bool :=
  match s with
  | EmptyString => false
  | String d EmptyString => Ascii.eqb d c
  | String _ s' => endsWith c s'
  end.

(** The entry of the example, one field per line, and the same entry
    written on a single line. *)
Definition doe2023 : string :=
  "@article{doe2023," +:+ nl
  +:+ "  author = {Doe, J. and Roe, K.}," +:+ nl
  +:+ "  title = {A Study}," +:+ nl
  +:+ "  year = {2023}," +:+ nl
  +:+ "  journal = {Journal X}," +:+ nl
  +:+ "  doi = {10.1/xyz}}".

Definition doe2023OneLine : string :=
  "@article{doe2023, author = {Doe, J. and Roe, K.}, title = {A Study}, year = {2023}, journal = {Journal X}, doi = {10.1/xyz}}".

(** Two records that differ in their year, and an old and a recent entry
    in one file. *)
Definition entry2022 : gmap string string :=
  <["year" := "2022"]> (<["key" := "a"]> (<["type" := "article"]> ∅)).

Definition entry2024 : gmap string string :=
  <["year" := "2024"]> (<["key" := "b"]> (<["type" := "article"]> ∅)).

(** A record with a year and nothing else. *)
Definition yearOnly (y : string) : gmap string string := <["year" := y]> ∅.

Definition twoEntries : string :=
  "@article{a," +:+ nl +:+ "  year = {2022}," +:+ nl +:+ "}" +:+ nl
  +:+ "@article{b," +:+ nl +:+ "  year = {2024}," +:+ nl +:+ "}".

(** ** src/unnamed/part_000, lines 33-46: the avatar and the QR code *)

Module IndexPage.

(** The inline [style.display] of the two images.  The page starts with
    [display: none] on the QR code and no inline display on the avatar
    (lines 30-31). *)
Record images : Type := Images { qrcode : string; avatar : string }.

Definition initial : images := Images "none" EmptyString.

(** [toggleQRCode], lines 34-45; both images are elements of the page,
    so neither [getElementById] returns [null]. *)
Definition toggleQRCode (page : images) : images :=
  if String.eqb (qrcode page) "none"
  then Images "block" "none"
  else Images "none" "block".

(** The page after [n] clicks on either image. *)
Fixpoint clicks (n : nat) (page : images) : images :=
  match n with
  | O => page
  | S k => toggleQRCode (clicks k page)
  end.

End IndexPage.

(** ** More vocabulary *)

(** How many times [c] occurs in [s]. *)
Fixpoint countChar (c : ascii) (s : string) : nat :=
  match s with
  | EmptyString => O
  | String d s' => (if Ascii.eqb d c then 1 else 0) + countChar c s'
  end.

(** A line that opens an entry but has no opening brace. *)
Definition headerWithoutBrace (line : string) : bool :=
  startsWith "@" (trim line) && negb (includes "{" (trim line)).

(** A line that opens an entry. *)
Definition opensEntry (line : string) : bool := startsWith "@" (trim line).

(** The number a year stands for in the comparison of the sort, for a
    year that JavaScript reads as a whole number: decimal digits, but also
    [0x7EA], [2.024e3] or a year with white space around it; a missing or
    empty year counts as 0.  Up to 2^53 a double holds the number
    exactly. *)
Definition yearNumber (entry : gmap string string) : Z :=
  match SplitParser.yearOrZero entry with
  | Fin q => Qfloor q
  | _ => 0%Z
  end.

Definition wholeYear (entry : gmap string string) : Prop :=
  match SplitParser.yearOrZero entry with
  | Fin q => (q == inject_Z (Qfloor q))%Q /\ (Z.abs (Qfloor q) <= 2 ^ 53)%Z
  | _ => False
  end.

(** The value a body line of a segment stores, and the key of a record
    after the body lines: a line that is itself a field named [key]
    replaces it. *)
Definition fieldValue (line : string) : string :=
  SplitParser.stripValue (beforeFirst "=" (afterFirst "=" (trim line))).

Definition keyAfter (lines : list string) (key : string) : string :=
  fold_left (fun k line =>
               match fieldName line with
               | Some n => if String.eqb n "key" then fieldValue line else k
               | None => k
               end)
            lines key.

(** What a line that does not open an entry does to the current record
    of the line-based parsers. *)
Definition lineField (currentEntry : gmap string string) (line0 : string)
    : gmap string string :=
  let line := trim line0 in
  if includes "=" line
  then setProp currentEntry (trim (beforeFirst "=" line))
         (removeAll (inClass "{},") (trim (beforeFirst "=" (afterFirst "=" line))))
  else currentEntry.

(** Three recent entries, the second with a year that is not a number,
    and the record of the second. *)
Definition undated : string :=
  "@article{a," +:+ nl +:+ "  year = {2022}," +:+ nl +:+ "}" +:+ nl
  +:+ "@article{u," +:+ nl +:+ "  year = {2025 (to appear)}," +:+ nl +:+ "}" +:+ nl
  +:+ "@article{b," +:+ nl +:+ "  year = {2024}," +:+ nl +:+ "}".

Definition entryUndated : gmap string string :=
  <["year" := "2025 (to appear)"]> (<["key" := "u"]> (<["type" := "article"]> ∅)).

(** A segment with a header without brace, and a text around it. *)
Definition miscSegment : string := "misc" +:+ nl +:+ "  year = 2024" +:+ nl.

(** The properties the renderer of the splitting parser reads. *)
Definition renderedFields : list string :=
  ["author"; "title"; "journal"; "booktitle"; "publisher"; "howpublished";
   "year"; "doi"].

(** ** Strings *)

Section StringFacts.
Variable c : ascii.

Lemma split_no_separator (s : string) :
  includes c s = false -> split c s = [s].
Proof.
  induction s as [|d s IH]; simpl; [reflexivity|].
  destruct (Ascii.eqb d c); simpl; [discriminate|].
  intros H. rewrite (IH H). reflexivity.
Qed.

Lemma split_at_first (s : string) :
  includes c s = true ->
  split c s = beforeFirst c s :: split c (afterFirst c s).
Proof.
  induction s as [|d s IH]; simpl; [discriminate|].
  destruct (Ascii.eqb d c); simpl; [reflexivity|].
  intros H. rewrite (IH H). reflexivity.
Qed.

Lemma split_cons (s : string) : exists h t, split c s = h :: t.
Proof.
  destruct s as [|d s]; simpl; [eauto|].
  destruct (Ascii.eqb d c); [eauto|].
  destruct (split c s); eauto.
Qed.

Lemma split_first (s : string) : split c s !! 0%nat = Some (beforeFirst c s).
Proof.
  induction s as [|d s IH]; simpl; [reflexivity|].
  destruct (Ascii.eqb d c); [reflexivity|].
  destruct (split c s) as [|h t]; simpl in *; [discriminate|].
  congruence.
Qed.

Lemma split_second (s : string) :
  includes c s = true ->
  split c s !! 1%nat = Some (beforeFirst c (afterFirst c s)).
Proof.
  intros H. rewrite (split_at_first s H). simpl. apply split_first.
Qed.

Lemma split_second_none (s : string) :
  includes c s = false -> split c s !! 1%nat = None.
Proof. intros H. rewrite (split_no_separator s H). reflexivity. Qed.
End StringFacts.

(** ** The splitting parser never throws *)

Section SplitParserTotal.
Import SplitParser.

Lemma forEach_total {S A : Type} (body : S -> A -> result S) :
  (forall s x, exists s', body s x = Ok s') ->
  forall xs s, exists s', forEach body xs s = Ok s'.
Proof.
  intros Hbody xs. induction xs as [|x xs IH]; intros s; simpl; [eauto|].
  destruct (Hbody s x) as [s' ->]. simpl. apply IH.
Qed.

Lemma entryOfHeader_no_brace (h : string) :
  includes "{" h = false ->
  entryOfHeader (Some h) = Ok (<["key" := EmptyString]> (<["type" := trim h]> ∅)).
Proof.
  intros H. unfold entryOfHeader. simpl.
  rewrite (split_no_separator _ _ H). reflexivity.
Qed.

Lemma entryOfHeader_total (h : string) :
  exists k, entryOfHeader (Some h)
            = Ok (<["key" := k]> (<["type" := trim (beforeFirst "{" h)]> ∅)).
Proof.
  unfold entryOfHeader. simpl. rewrite split_first. simpl.
  destruct (split "{" h !! 1%nat) as [k|]; simpl; [|eauto].
  destruct (negb (String.eqb k EmptyString)); simpl; eauto.
Qed.

Lemma readField_assigns (entry : gmap string string) (line : string) :
  includes "=" (trim line) = true ->
  readField entry line
  = Ok (setProp entry (toLowerCase (trim (beforeFirst "=" (trim line))))
          (stripValue (beforeFirst "=" (afterFirst "=" (trim line))))).
Proof.
  intros H. unfold readField. rewrite H, split_first, (split_second _ _ H).
  reflexivity.
Qed.

Lemma readField_skips (entry : gmap string string) (line : string) :
  includes "=" (trim line) = false -> readField entry line = Ok entry.
Proof. intros H. unfold readField. rewrite H. reflexivity. Qed.

Lemma readField_total (entry : gmap string string) (line : string) :
  exists entry', readField entry line = Ok entry'.
Proof.
  destruct (includes "=" (trim line)) eqn:H.
  - rewrite (readField_assigns _ _ H). eauto.
  - rewrite (readField_skips _ _ H). eauto.
Qed.

Lemma parseEntry_total (raw : string) : exists entry, parseEntry raw = Ok entry.
Proof.
  unfold parseEntry. rewrite split_first.
  destruct (entryOfHeader_total (beforeFirst "010" raw)) as [k ->]. simpl.
  apply forEach_total, readField_total.
Qed.

(** The loop of [parseBibtex] keeps, in order, the recent records of the
    segments. *)
Lemma parse_loop (limYear : Z) (raws : list string) :
  forall acc, exists es,
    Forall2 (fun raw e => parseEntry raw = Ok e) raws es
    /\ forEach (fun entries raw =>
                  entry ← parseEntry raw;
                  Ok (if recent limYear entry
                      then (entries ++ [entry])%list else entries))
               raws acc
       = Ok (acc ++ List.filter (recent limYear) es)%list.
Proof.
  induction raws as [|raw raws IH]; intros acc; simpl.
  - exists []. split; [constructor|]. simpl. by rewrite app_nil_r.
  - destruct (parseEntry_total raw) as [e He]. rewrite He. simpl.
    destruct (IH (if recent limYear e then (acc ++ [e])%list else acc))
      as (es & HF & ->).
    exists (e :: es). split; [by constructor|]. simpl.
    destruct (recent limYear e); [by rewrite <- app_assoc|reflexivity].
Qed.

Lemma parseBibtex_filter (currentYear : Z) (bibtex : string) :
  exists es,
    Forall2 (fun raw e => parseEntry raw = Ok e) (rawEntries bibtex) es
    /\ parseBibtex currentYear bibtex
       = Ok (List.filter (recent (currentYear - 3)) es).
Proof.
  destruct (parse_loop (currentYear - 3) (rawEntries bibtex) []) as (es & HF & H).
  exists es. split; [exact HF|]. exact H.
Qed.

Lemma formatEntry_total (entry : gmap string string) :
  exists block, formatEntry entry = Ok block.
Proof.
  unfold formatEntry.
  destruct (getProp entry "author") as [a|]; simpl.
  - destruct (negb (String.eqb a EmptyString)); simpl; eauto.
  - eauto.
Qed.

Lemma mapArray_total {A B : Type} (f : A -> result B) :
  (forall x, exists y, f x = Ok y) ->
  forall xs, exists ys, mapArray f xs = Ok ys /\ length ys = length xs.
Proof.
  intros Hf xs. induction xs as [|x xs (ys & IH & Hlen)]; simpl; [eauto|].
  destruct (Hf x) as [y ->]. simpl. rewrite IH. simpl.
  exists (y :: ys). split; [reflexivity|]. simpl. congruence.
Qed.

Lemma renderHTML_blocks (entries : list (gmap string string)) :
  exists blocks,
    mapArray formatEntry (sort compareYears entries) = Ok blocks
    /\ renderHTML entries = Ok (join blocks, sort compareYears entries).
Proof.
  unfold renderHTML.
  destruct (mapArray_total formatEntry formatEntry_total
              (sort compareYears entries)) as (blocks & H & _).
  exists blocks. rewrite H. split; reflexivity.
Qed.
End SplitParserTotal.

(** ** The sort *)

Section SortPermutation.
Context {A : Type} (comparefn : A -> A -> number).

Lemma insertSorted_perm (x : A) (l : list A) :
  Permutation (insertSorted comparefn x l) (x :: l).
Proof.
  induction l as [|y l IH]; simpl; [reflexivity|].
  destruct (sortsAfter comparefn x y); [|reflexivity].
  rewrite IH. apply perm_swap.
Qed.

Lemma sort_perm (l : list A) : Permutation (sort comparefn l) l.
Proof.
  induction l as [|x l IH]; simpl; [reflexivity|].
  fold (sort comparefn l). rewrite insertSorted_perm. by constructor.
Qed.

Lemma insertSorted_Forall (Q : A -> Prop) (x : A) (l : list A) :
  Q x -> Forall Q l -> Forall Q (insertSorted comparefn x l).
Proof.
  intros Hx Hl. induction Hl as [|y l Hy Hl IH]; simpl.
  - by constructor.
  - destruct (sortsAfter comparefn x y); repeat constructor; assumption.
Qed.

Lemma sort_Forall (Q : A -> Prop) (l : list A) :
  Forall Q l -> Forall Q (sort comparefn l).
Proof.
  induction 1 as [|x l Hx Hl IH]; simpl; [constructor|].
  by apply insertSorted_Forall.
Qed.
End SortPermutation.

(** When, on the elements at hand, the comparison function orders by a
    numeric key, the sort is the stable descending sort on that key. *)
Section SortByKey.
Context {A : Type} (comparefn : A -> A -> number) (key : A -> Z) (P : A -> Prop).
Hypothesis after_key :
  forall x y, P x -> P y -> sortsAfter comparefn x y = (key x <? key y)%Z.

Lemma insertSorted_descending (x : A) (l : list A) :
  P x -> Forall P l -> descendingBy key l ->
  descendingBy key (insertSorted comparefn x l).
Proof.
  intros Hx HP Hs. induction Hs as [|y l Hs IH Hy]; simpl.
  - repeat constructor.
  - inversion HP as [|? ? Py Pl]; subst.
    rewrite (after_key x y Hx Py).
    destruct (Z.ltb_spec (key x) (key y)).
    + constructor; [by apply IH|].
      apply insertSorted_Forall; [lia|assumption].
    + constructor; [by constructor|].
      constructor; [lia|].
      eapply Forall_impl; [exact Hy|]. simpl. intros; lia.
Qed.

Lemma sort_descending (l : list A) :
  Forall P l -> descendingBy key (sort comparefn l).
Proof.
  induction 1 as [|x l Hx Hl IH]; simpl; [constructor|].
  apply insertSorted_descending; [assumption| |assumption].
  by apply sort_Forall.
Qed.

Lemma insertSorted_stable (n : Z) (x : A) (l : list A) :
  P x -> Forall P l ->
  withKey key n (insertSorted comparefn x l) = withKey key n (x :: l).
Proof.
  intros Hx HP. unfold withKey.
  induction HP as [|y l Py Pl IH]; [reflexivity|].
  cbn [insertSorted]. rewrite (after_key x y Hx Py).
  destruct (Z.ltb_spec (key x) (key y)); [|reflexivity].
  cbn [List.filter] in *. rewrite IH.
  destruct (Z.eqb_spec (key x) n), (Z.eqb_spec (key y) n); try reflexivity; lia.
Qed.

Lemma sort_stable (n : Z) (l : list A) :
  Forall P l -> withKey key n (sort comparefn l) = withKey key n l.
Proof.
  induction 1 as [|x l Hx Hl IH]; [reflexivity|].
  simpl. fold (sort comparefn l).
  rewrite insertSorted_stable; [|assumption|by apply sort_Forall].
  unfold withKey in *. simpl. by rewrite IH.
Qed.

Lemma insertSorted_head (x : A) (l : list A) :
  P x -> Forall P l -> descendingBy key (x :: l) ->
  insertSorted comparefn x l = x :: l.
Proof.
  intros Hx HP Hs. destruct l as [|y l]; [reflexivity|]. simpl.
  inversion HP; subst. inversion Hs as [|? ? _ Hall]; subst.
  inversion Hall; subst.
  rewrite after_key by assumption.
  destruct (Z.ltb_spec (key x) (key y)); [lia|reflexivity].
Qed.

Lemma sort_descending_id (l : list A) :
  Forall P l -> descendingBy key l -> sort comparefn l = l.
Proof.
  induction 1 as [|x l Hx Hl IH]; intros Hs; [reflexivity|].
  simpl. fold (sort comparefn l).
  inversion Hs; subst. rewrite IH by assumption.
  by apply insertSorted_head.
Qed.
End SortByKey.

(** ** Years written in decimal digits *)

Section DigitFacts.

Lemma digit_char (c : ascii) :
  isDigit c = true ->
  isWhiteSpace c = false
  /\ digitValue 10 c = Some (Z.of_N (code c) - 48)%Z
  /\ Ascii.eqb c "-" = false /\ Ascii.eqb c "+" = false
  /\ isChar "x" "X" c = false /\ isChar "b" "B" c = false
  /\ isChar "o" "O" c = false /\ Ascii.eqb c "I" = false.
Proof.
  destruct c as [[] [] [] [] [] [] [] []]; vm_compute; intros H;
    try discriminate H; repeat split; reflexivity.
Qed.

Lemma digitValue_radix0 (c : ascii) : digitValue 0 c = None.
Proof.
  destruct c as [[] [] [] [] [] [] [] []]; vm_compute; reflexivity.
Qed.

Lemma trimStart_digits (s : string) : allDigits s = true -> trimStart s = s.
Proof.
  destruct s as [|c s]; simpl; [reflexivity|].
  intros [Hc _]%andb_prop. destruct (digit_char c Hc) as [-> _]. reflexivity.
Qed.

Lemma trimEnd_digits (s : string) : allDigits s = true -> trimEnd s = s.
Proof.
  induction s as [|c s IH]; simpl; [reflexivity|].
  intros [Hc Hs]%andb_prop. rewrite (IH Hs).
  destruct (digit_char c Hc) as [-> _]. destruct s; reflexivity.
Qed.

Lemma trim_digits (s : string) : allDigits s = true -> trim s = s.
Proof.
  intros H. unfold trim. rewrite (trimStart_digits s H). by apply trimEnd_digits.
Qed.

Lemma spanDigits_digits (s : string) :
  allDigits s = true ->
  exists ds, spanDigits 10 s = (ds, EmptyString)
             /\ (ds = [] <-> s = EmptyString)
             /\ forall acc, fold_left (fun a d => a * 10 + d)%Z ds acc
                            = decimalFrom acc s.
Proof.
  induction s as [|c s IH]; simpl.
  - exists []. repeat split; reflexivity.
  - intros [Hc Hs]%andb_prop. destruct (IH Hs) as (ds & -> & _ & Hval).
    destruct (digit_char c Hc) as (_ & -> & _).
    exists ((Z.of_N (code c) - 48)%Z :: ds). split; [reflexivity|].
    split; [split; discriminate|]. intros acc. simpl. apply Hval.
Qed.

(** [parseInt] of a non-empty string of digits is the number it writes. *)
Lemma parseInt_digits (s : string) :
  allDigits s = true -> s <> EmptyString -> parseInt s = ofZ (decimal s).
Proof.
  intros H Hne. unfold parseInt. rewrite (trimStart_digits s H).
  destruct (spanDigits_digits s H) as (ds & Hspan & Hnil & Hval).
  destruct s as [|c s]; [congruence|].
  pose proof H as [Hc Hs]%andb_prop.
  destruct (digit_char c Hc) as (_ & _ & -> & -> & _).
  assert (Hradix :
    match String c s with
    | String z (String x r) =>
        if Ascii.eqb z "0" && isChar "x" "X" x then (16%Z, r) else (10%Z, String c s)
    | _ => (10%Z, String c s)
    end = (10%Z, String c s)).
  { destruct s as [|x r]; [reflexivity|].
    simpl in Hs. apply andb_prop in Hs as [Hx _].
    destruct (digit_char x Hx) as (_ & _ & _ & _ & -> & _).
    by rewrite andb_false_r. }
  rewrite Hradix, Hspan. simpl.
  destruct ds as [|d ds]; [exfalso; apply Hne, Hnil; reflexivity|].
  unfold valueOf, decimal. rewrite Hval.
  by destruct (decimalFrom 0 (String c s)).
Qed.

Lemma nonDecimalLiteral_digits (s : string) :
  allDigits s = true -> nonDecimalLiteral s = None.
Proof.
  destruct s as [|z [|x r]]; try reflexivity. simpl.
  intros [_ [Hx _]%andb_prop]%andb_prop.
  destruct (digit_char x Hx) as (_ & _ & _ & _ & -> & -> & -> & _).
  destruct (Ascii.eqb z "0"); [|reflexivity].
  destruct r as [|c r]; [reflexivity|]. simpl.
  by rewrite digitValue_radix0.
Qed.

(** [Number] of a non-empty string of digits is the number it writes. *)
Lemma StringToNumber_digits (s : string) :
  allDigits s = true -> s <> EmptyString ->
  exists q, StringToNumber s = Fin q /\ (q == inject_Z (decimal s))%Q.
Proof.
  intros H Hne. unfold StringToNumber. rewrite (trim_digits s H).
  destruct (spanDigits_digits s H) as (ds & Hspan & Hnil & Hval).
  pose proof (nonDecimalLiteral_digits s H) as Hnd.
  destruct s as [|c s]; [congruence|]. rewrite Hnd.
  pose proof H as [Hc _]%andb_prop.
  destruct (digit_char c Hc) as (_ & _ & -> & -> & _ & _ & _ & HI).
  unfold unsignedDecimalLiteral.
  replace (String.eqb (String c s) "Infinity") with false
    by (simpl; by rewrite HI).
  rewrite Hspan.
  destruct ds as [|d ds]; [exfalso; apply Hne, Hnil; reflexivity|].
  cbn [exponentPart]. eexists. split; [reflexivity|].
  unfold valueOf at 1, decimal. rewrite Hval.
  change (valueOf 10 []) with 0%Z. change (length (@nil Z)) with 0%nat.
  change (Qpower (inject_Z 10) 0) with 1%Q.
  change (inject_Z (10 ^ Z.of_nat 0)) with 1%Q.
  change (inject_Z 0) with 0%Q. field.
Qed.

Lemma ge_ofZ (a b : Z) : ge (ofZ a) (ofZ b) = (b <=? a)%Z.
Proof.
  unfold ge, ofZ. apply eq_true_iff_eq.
  rewrite Qle_bool_iff, <- Zle_Qle, Z.leb_le. reflexivity.
Qed.

Lemma gt_zero (q : Q) (z : Z) :
  (q == inject_Z z)%Q -> gt (Fin q) (ofZ 0) = (0 <? z)%Z.
Proof.
  intros Hq. unfold gt, ofZ. apply eq_true_iff_eq.
  rewrite negb_true_iff, <- not_true_iff_false, Qle_bool_iff, Hq.
  change (inject_Z 0) with 0%Q. rewrite Z.ltb_lt.
  change 0%Q with (inject_Z 0). rewrite <- Zle_Qle. lia.
Qed.
End DigitFacts.

(** ** Facts about the splitting parser and its renderer *)

Section SplitParserFacts.
Import SplitParser.

Lemma recent_digits (limYear : Z) (entry : gmap string string) (y : string) :
  getProp entry "year" = Some y -> allDigits y = true -> y <> EmptyString ->
  recent limYear entry = (limYear <=? decimal y)%Z.
Proof.
  intros Hy Hd Hne. unfold recent. rewrite Hy. simpl.
  rewrite (parseInt_digits y Hd Hne), ge_ofZ.
  destruct (String.eqb_spec y EmptyString); [contradiction|reflexivity].
Qed.

Lemma yearOrZero_plain (entry : gmap string string) :
  plainYear entry ->
  exists q, yearOrZero entry = Fin q /\ (q == inject_Z (numericYear entry))%Q.
Proof.
  unfold plainYear, yearOrZero, numericYear.
  destruct (getProp entry "year") as [y|]; simpl.
  - intros [Hd _]. destruct (String.eqb_spec y EmptyString) as [->|Hne]; simpl.
    + exists (inject_Z 0). split; reflexivity.
    + by apply StringToNumber_digits.
  - intros _. exists (inject_Z 0). split; reflexivity.
Qed.

Lemma compareYears_plain (a b : gmap string string) :
  plainYear a -> plainYear b ->
  sortsAfter compareYears a b = (numericYear a <? numericYear b)%Z.
Proof.
  intros Ha Hb. unfold sortsAfter, compareYears.
  destruct (yearOrZero_plain a Ha) as (qa & -> & Hqa).
  destruct (yearOrZero_plain b Hb) as (qb & -> & Hqb).
  simpl sub. rewrite (gt_zero (qb - qa) (numericYear b - numericYear a)).
  - destruct (Z.ltb_spec 0 (numericYear b - numericYear a)),
             (Z.ltb_spec (numericYear a) (numericYear b)); try reflexivity; lia.
  - rewrite Hqa, Hqb. unfold Zminus. rewrite inject_Z_plus, inject_Z_opp.
    reflexivity.
Qed.

Lemma Forall2_In_l {A B : Type} (R : A -> B -> Prop) (l : list A) (k : list B) (a : A) :
  Forall2 R l k -> In a l -> exists b, In b k /\ R a b.
Proof.
  induction 1 as [|x y l k Hxy _ IH]; simpl; [tauto|].
  intros [->|Hin]; [eauto|]. destruct (IH Hin) as (b & ? & ?). eauto.
Qed.

Lemma Forall2_In_r {A B : Type} (R : A -> B -> Prop) (l : list A) (k : list B) (b : B) :
  Forall2 R l k -> In b k -> exists a, In a l /\ R a b.
Proof.
  induction 1 as [|x y l k Hxy _ IH]; simpl; [tauto|].
  intros [->|Hin]; [eauto|]. destruct (IH Hin) as (a & ? & ?). eauto.
Qed.

(** A body line leaves every property but the one it names as it was. *)
Lemma setProp_other (o : gmap string string) (name value n : string) :
  n <> name -> getProp (setProp o name value) n = getProp o n.
Proof.
  intros Hn. unfold setProp, getProp.
  destruct (String.eqb name "__proto__"); [reflexivity|].
  by rewrite lookup_insert_ne.
Qed.

Lemma setProp_same (o : gmap string string) (name value : string) :
  name <> "__proto__" -> getProp (setProp o name value) name = Some value.
Proof.
  intros Hn. unfold setProp, getProp.
  destruct (String.eqb_spec name "__proto__"); [contradiction|].
  by rewrite lookup_insert_eq.
Qed.

Lemma readField_other (entry entry' : gmap string string) (line n : string) :
  readField entry line = Ok entry' -> fieldName line <> Some n ->
  getProp entry' n = getProp entry n.
Proof.
  unfold fieldName. destruct (includes "=" (trim line)) eqn:H.
  - rewrite (readField_assigns _ _ H). intros [= <-] Hn.
    apply setProp_other. congruence.
  - rewrite (readField_skips _ _ H). by intros [= <-].
Qed.

Lemma forEach_readField_other (n : string) (lines : list string) :
  Forall (fun line => fieldName line <> Some n) lines ->
  forall entry entry', forEach readField lines entry = Ok entry' ->
  getProp entry' n = getProp entry n.
Proof.
  induction 1 as [|line lines Hl _ IH]; simpl; intros entry entry'.
  - by intros [= <-].
  - destruct (readField_total entry line) as [e1 H1]. rewrite H1. simpl.
    intros H. rewrite (IH _ _ H). by eapply readField_other.
Qed.
(** The key of the header stays unless a body line is a field named
    [key]. *)
Lemma key_kept_without_key_field (raw : string) (entry : gmap string string) :
  includes "{" (headerLine raw) = false ->
  Forall (fun line => fieldName line <> Some "key") (bodyLines raw) ->
  parseEntry raw = Ok entry ->
  getProp entry "key" = Some EmptyString.
Proof.
  intros Hbrace Hbody Hentry.
  unfold parseEntry in Hentry. rewrite split_first in Hentry.
  fold (headerLine raw) in Hentry.
  rewrite (entryOfHeader_no_brace _ Hbrace) in Hentry. simpl in Hentry.
  rewrite (forEach_readField_other "key" _ Hbody _ _ Hentry).
  unfold getProp. by rewrite lookup_insert_eq.
Qed.
End SplitParserFacts.

(** ** Trimming and the first separator of a line *)

Section TrimFacts.
Variable c : ascii.
Hypothesis c_not_white : isWhiteSpace c = false.

Lemma white_not_c (d : ascii) : isWhiteSpace d = true -> Ascii.eqb d c = false.
Proof.
  intros Hd. destruct (Ascii.eqb_spec d c) as [->|]; [congruence|reflexivity].
Qed.

Lemma includes_trimStart (s : string) : includes c (trimStart s) = includes c s.
Proof.
  induction s as [|d s IH]; simpl; [reflexivity|].
  destruct (isWhiteSpace d) eqn:Hd; [|reflexivity].
  by rewrite IH, (white_not_c d Hd).
Qed.

Lemma includes_trimEnd (s : string) : includes c (trimEnd s) = includes c s.
Proof.
  induction s as [|d s IH]; simpl; [reflexivity|].
  destruct (trimEnd s) as [|e t]; simpl in *.
  - rewrite <- IH, orb_false_r.
    destruct (isWhiteSpace d) eqn:Hd; simpl;
      [by rewrite (white_not_c d Hd)|by rewrite orb_false_r].
  - by rewrite IH.
Qed.

Lemma includes_trim (s : string) : includes c (trim s) = includes c s.
Proof. unfold trim. by rewrite includes_trimEnd, includes_trimStart. Qed.

Lemma beforeFirst_trimStart (s : string) :
  beforeFirst c (trimStart s) = trimStart (beforeFirst c s).
Proof.
  induction s as [|d s IH]; simpl; [reflexivity|].
  destruct (isWhiteSpace d) eqn:Hd.
  - rewrite (white_not_c d Hd). simpl. by rewrite Hd.
  - simpl. destruct (Ascii.eqb d c); [reflexivity|]. simpl. by rewrite Hd.
Qed.

Lemma beforeFirst_trimEnd (s : string) :
  includes c s = true -> beforeFirst c (trimEnd s) = beforeFirst c s.
Proof.
  induction s as [|d s IH]; simpl; [discriminate|].
  destruct (Ascii.eqb_spec d c) as [->|Hdc]; simpl.
  - intros _. rewrite c_not_white.
    destruct (trimEnd s); simpl; by rewrite Ascii.eqb_refl.
  - intros Hs. specialize (IH Hs).
    pose proof (includes_trimEnd s) as Hinc. rewrite Hs in Hinc.
    destruct (trimEnd s) as [|e t]; [discriminate|].
    cbn [beforeFirst]. destruct (Ascii.eqb_spec d c); [contradiction|].
    by rewrite <- IH.
Qed.

Lemma trimStart_idem (s : string) : trimStart (trimStart s) = trimStart s.
Proof.
  induction s as [|d s IH]; simpl; [reflexivity|].
  destruct (isWhiteSpace d) eqn:Hd; [exact IH|]. simpl. by rewrite Hd.
Qed.

(** Trimming the line first does not change the trimmed left side. *)
Lemma trim_beforeFirst_trim (s : string) :
  includes c s = true ->
  trim (beforeFirst c (trim s)) = trim (beforeFirst c s).
Proof.
  intros H. unfold trim at 2.
  rewrite beforeFirst_trimEnd by (by rewrite includes_trimStart).
  rewrite beforeFirst_trimStart. unfold trim. by rewrite trimStart_idem.
Qed.
End TrimFacts.

(** ** Stripping a field value *)

Section StripFacts.
Import SplitParser.

Lemma removeAll_app (cls : ascii -> bool) (a b : string) :
  removeAll cls (a +:+ b) = removeAll cls a +:+ removeAll cls b.
Proof.
  induction a as [|d a IH]; simpl; [reflexivity|].
  destruct (cls d); simpl; by rewrite IH.
Qed.

Lemma removeTrailingComma_snoc (w : string) :
  removeTrailingComma (w +:+ ",") = w.
Proof.
  induction w as [|d w IH]; [reflexivity|].
  simpl. rewrite IH. destruct w; reflexivity.
Qed.

Lemma removeTrailingComma_id (w : string) :
  endsWith "," w = false -> removeTrailingComma w = w.
Proof.
  induction w as [|d w IH]; [reflexivity|].
  simpl. destruct w as [|e w]; [by intros ->|].
  intros H. by rewrite (IH H).
Qed.

Lemma app_empty_l (a : string) : EmptyString +:+ a = a.
Proof. reflexivity. Qed.

(** Braces, or quotes, around a value and a comma after it leave
    nothing behind. *)
Lemma stripValue_wrapped (opening closing v : string) :
  removeAll (inClass ("{}" +:+ dq)) opening = EmptyString ->
  removeAll (inClass ("{}" +:+ dq)) closing = EmptyString ->
  endsWith "," (removeAll (inClass ("{}" +:+ dq)) v) = false ->
  stripValue (opening +:+ v +:+ closing +:+ ",") = stripValue v.
Proof.
  intros Ho Hc Hv. unfold stripValue.
  rewrite !removeAll_app, Ho, Hc, !app_empty_l.
  change (removeAll (inClass ("{}" +:+ dq)) ",") with ",".
  by rewrite removeTrailingComma_snoc, removeTrailingComma_id.
Qed.
End StripFacts.

(** ** Occurrences *)

Section OccursFacts.

Lemma prefixBy_eqb (needle hay : string) :
  prefixBy Ascii.eqb needle hay = true -> exists post, hay = needle +:+ post.
Proof.
  revert hay. induction needle as [|p needle IH]; intros hay; simpl; [eauto|].
  destruct hay as [|h hay]; [discriminate|].
  intros [Hp Hrest]%andb_prop. apply Ascii.eqb_eq in Hp as ->.
  destruct (IH hay Hrest) as [post ->]. eauto.
Qed.

Lemma includesStr_occursIn (needle hay : string) :
  includesStr needle hay = true -> occursIn needle hay.
Proof.
  induction hay as [|h hay IH].
  - simpl. rewrite orb_false_r. intros [post ->]%prefixBy_eqb.
    by exists EmptyString, post.
  - cbn [includesStr]. intros [H|H]%orb_prop.
    + destruct (prefixBy_eqb _ _ H) as [post ->]. by exists EmptyString, post.
    + destruct (IH H) as (pre & post & ->). by exists (String h pre), post.
Qed.

Lemma nothing_occursIn_empty (needle : string) :
  needle <> EmptyString -> ~ occursIn needle EmptyString.
Proof.
  intros Hne (pre & post & H).
  destruct pre; [|discriminate]. destruct needle; [congruence|discriminate].
Qed.
End OccursFacts.

(** ** The claims, on the splitting parser *)

Section Claims.
  Import SplitParser.

(** C1.  Take any segment of the input whose record has a [year] made of
    exactly four decimal digits.  Parsing and rendering go through, the
    fragment is the concatenation of the blocks of the records left in the
    array, and the record is among them if and only if its year is at
    least the current year minus 3. *)
Theorem recent_entries_are_rendered
    (currentYear : Z) (bibtex raw : string) (entry : gmap string string) (y : string) :
  In raw (rawEntries bibtex) ->
  parseEntry raw = Ok entry ->
  getProp entry "year" = Some y ->
  fourDigits y ->
  exists entries html shown blocks,
    parseBibtex currentYear bibtex = Ok entries
    /\ renderHTML entries = Ok (html, shown)
    /\ main currentYear (Some bibtex) = Displayed html
    /\ mapArray formatEntry shown = Ok blocks
    /\ html = join blocks
    /\ (In entry shown <-> (currentYear - 3 <= decimal y)%Z).
Proof.
  intros Hraw Hentry Hy [Hlen Hdigits].
  assert (Hne : y <> EmptyString) by (intros ->; discriminate Hlen).
  destruct (parseBibtex_filter currentYear bibtex) as (es & HF & Hparse).
  destruct (renderHTML_blocks (List.filter (recent (currentYear - 3)) es))
    as (blocks & Hblocks & Hrender).
  eexists _, _, _, blocks. split; [exact Hparse|]. split; [exact Hrender|].
  split; [unfold main; by rewrite Hparse; simpl; rewrite Hrender|].
  split; [exact Hblocks|]. split; [reflexivity|].
  pose proof (recent_digits (currentYear - 3) entry y Hy Hdigits Hne) as Hrecent.
  split.
  - intros Hin. eapply Permutation_in in Hin; [|apply sort_perm].
    apply filter_In in Hin as [_ Hin]. rewrite Hrecent in Hin. lia.
  - intros Hle. eapply Permutation_in; [symmetry; apply sort_perm|].
    apply filter_In. split; [|rewrite Hrecent; lia].
    destruct (Forall2_In_l _ _ _ raw HF Hraw) as (e & Hin & He).
    congruence.
Qed.

Lemma recent_entries_are_rendered_witness :
  exists entries html shown blocks,
    parseBibtex 2024 doe2023 = Ok entries
    /\ renderHTML entries = Ok (html, shown)
    /\ main 2024 (Some doe2023) = Displayed html
    /\ mapArray formatEntry shown = Ok blocks
    /\ html = join blocks
    /\ (In (<["doi" := "10.1/xyz"]> (<["journal" := "Journal X"]>
             (<["year" := "2023"]> (<["title" := "A Study"]>
               (<["author" := "Doe, J. and Roe, K."]>
                 (<["key" := "doe2023"]> (<["type" := "article"]> ∅)))))))
           shown
        <-> (2024 - 3 <= decimal "2023")%Z).
Proof.
  apply (recent_entries_are_rendered 2024 doe2023
           (substring1 doe2023) _ "2023").
  - vm_compute. left. reflexivity.
  - vm_compute. reflexivity.
  - vm_compute. reflexivity.
  - split; reflexivity.
Defined.

(** The splitting parser and its renderer never throw: [parseBibtex]
    returns an array for every text and every year, [renderHTML] returns a
    fragment for every array of records, whichever fields they lack, and
    the page ends in the error handler only when the text could not be
    fetched.  This is the copy that guards what the line-based copies
    leave unguarded. *)
Theorem parser_and_renderer_never_throw :
  (forall (currentYear : Z) (bibtex : string),
      exists entries, parseBibtex currentYear bibtex = Ok entries)
  /\ (forall entries : list (gmap string string),
         exists html shown, renderHTML entries = Ok (html, shown))
  /\ (forall (currentYear : Z) (response : option string),
         main currentYear response = ErrorLogged <-> response = None).
Proof.
  split; [|split].
  - intros currentYear bibtex.
    destruct (parseBibtex_filter currentYear bibtex) as (es & _ & H). eauto.
  - intros entries. destruct (renderHTML_blocks entries) as (blocks & _ & H). eauto.
  - intros currentYear [bibtex|]; simpl; [|tauto].
    destruct (parseBibtex_filter currentYear bibtex) as (es & _ & ->). simpl.
    destruct (renderHTML_blocks (List.filter (recent (currentYear - 3)) es))
      as (blocks & _ & ->).
    split; discriminate.
Qed.

(** C5, as amended.  For every value that does not end in a comma once its
    braces and quotes are removed, the value in braces followed by a comma,
    and the value in double quotes followed by a comma, are stripped to
    what the bare value is stripped to; the lines
    [title = {Deep Learning},] and [title = Deep Learning] both store the
    title [Deep Learning]. *)
Theorem strip_decoration (v : string) :
  endsWith "," (removeAll (inClass ("{}" +:+ dq)) v) = false ->
  stripValue ("{" +:+ v +:+ "}" +:+ ",") = stripValue v
  /\ stripValue (dq +:+ v +:+ dq +:+ ",") = stripValue v
  /\ forall entry : gmap string string,
       readField entry "title = {Deep Learning}," = Ok (setProp entry "title" "Deep Learning")
       /\ readField entry "title = Deep Learning" = Ok (setProp entry "title" "Deep Learning").
Proof.
  intros Hv. split; [|split].
  - by apply stripValue_wrapped.
  - by apply stripValue_wrapped.
  - intros entry. split; by rewrite readField_assigns.
Qed.

Lemma strip_decoration_witness :
  stripValue ("{" +:+ "Deep Learning" +:+ "}" +:+ ",") = stripValue "Deep Learning"
  /\ stripValue (dq +:+ "Deep Learning" +:+ dq +:+ ",") = stripValue "Deep Learning"
  /\ forall entry : gmap string string,
       readField entry "title = {Deep Learning}," = Ok (setProp entry "title" "Deep Learning")
       /\ readField entry "title = Deep Learning" = Ok (setProp entry "title" "Deep Learning").
Proof.
  apply (strip_decoration "Deep Learning"). reflexivity.
Defined.

(** C5, as stated, fails for a value that ends in a comma: in braces and
    followed by a comma, [a,] keeps its own comma; bare, it loses it. *)
Lemma strip_decoration_trailing_comma :
  ~ (forall v : string, stripValue ("{" +:+ v +:+ "}" +:+ ",") = stripValue v).
Proof.
  intros H. specialize (H "a,"). vm_compute in H. discriminate H.
Qed.

(** C6.  For the empty array the fragment is the empty string, with no
    markup around it; so a text without any entry shows an empty
    fragment, whatever the year. *)
Theorem render_no_entries :
  renderHTML [] = Ok (EmptyString, [])
  /\ forall currentYear : Z,
       parseBibtex currentYear EmptyString = Ok []
       /\ main currentYear (Some EmptyString) = Displayed EmptyString.
Proof.
  split; [reflexivity|]. intros currentYear.
  assert (Hparse : parseBibtex currentYear EmptyString = Ok []) by reflexivity.
  split; [exact Hparse|]. unfold main. rewrite Hparse. reflexivity.
Qed.

(** C7, as amended.  With the entry written one field per line, the
    current year 2024 and the cutoff of 3 years, the page shows a fragment
    in which occur the authors [Doe, J., Roe, K.], the title [A Study] in
    quotes inside an [i] element, [Journal X, 2023], and a link whose
    target is [https://doi.org/10.1/xyz]. *)
Theorem doe2023_fragment :
  exists html,
    main 2024 (Some doe2023) = Displayed html
    /\ occursIn "Doe, J., Roe, K." html
    /\ occursIn ("<i>" +:+ dq +:+ "A Study" +:+ dq +:+ "</i>") html
    /\ occursIn "Journal X, 2023" html
    /\ occursIn ("<a href=" +:+ dq +:+ "https://doi.org/10.1/xyz" +:+ dq) html.
Proof.
  eexists. split; [vm_compute; reflexivity|].
  repeat split; apply includesStr_occursIn; vm_compute; reflexivity.
Qed.

(** C7, as stated, fails when the entry is the single line of the claim:
    the whole line is the header of its segment, no field is read, the
    record has no year and the fragment is empty. *)
Lemma doe2023_on_one_line :
  main 2024 (Some doe2023OneLine) = Displayed EmptyString
  /\ ~ (exists html,
           main 2024 (Some doe2023OneLine) = Displayed html
           /\ occursIn "Doe, J., Roe, K." html).
Proof.
  assert (H : main 2024 (Some doe2023OneLine) = Displayed EmptyString)
    by (vm_compute; reflexivity).
  split; [exact H|]. intros (html & Hmain & Hocc).
  rewrite H in Hmain. injection Hmain as <-.
  by apply nothing_occursIn_empty in Hocc.
Qed.

(** C8.  A line that contains [=] assigns its value to the property named
    by the text to the left of the first [=], trimmed and lower-cased, and
    leaves every other property as it was.  A field written [Title = ...]
    is found under [title], not under [Title]. *)
Theorem field_name_trimmed_lowercased (entry : gmap string string) (line : string) :
  includes "=" line = true ->
  (exists value,
      readField entry line
      = Ok (setProp entry (toLowerCase (trim (beforeFirst "=" line))) value)
      /\ forall n, n <> toLowerCase (trim (beforeFirst "=" line)) ->
                   getProp (setProp entry (toLowerCase (trim (beforeFirst "=" line))) value) n
                   = getProp entry n)
  /\ exists entry',
       readField entry "  Title = {A Study}," = Ok entry'
       /\ getProp entry' "title" = Some "A Study"
       /\ getProp entry' "Title" = getProp entry "Title".
Proof.
  intros H.
  assert (Htrim : includes "=" (trim line) = true)
    by (by rewrite includes_trim).
  split.
  - eexists. split.
    + rewrite (readField_assigns _ _ Htrim).
      by rewrite (trim_beforeFirst_trim "=" eq_refl line H).
    + intros n Hn. by apply setProp_other.
  - eexists. split; [by rewrite readField_assigns|].
    split; [by apply setProp_same|by apply setProp_other].
Qed.

Lemma field_name_trimmed_lowercased_witness :
  (exists value,
      readField entry2022 " Journal = {Journal X},"
      = Ok (setProp entry2022
              (toLowerCase (trim (beforeFirst "=" " Journal = {Journal X},"))) value)
      /\ forall n, n <> toLowerCase (trim (beforeFirst "=" " Journal = {Journal X},")) ->
                   getProp (setProp entry2022
                              (toLowerCase (trim (beforeFirst "=" " Journal = {Journal X},")))
                              value) n
                   = getProp entry2022 n)
  /\ exists entry',
       readField entry2022 "  Title = {A Study}," = Ok entry'
       /\ getProp entry' "title" = Some "A Study"
       /\ getProp entry' "Title" = getProp entry2022 "Title".
Proof.
  apply (field_name_trimmed_lowercased entry2022 " Journal = {Journal X},").
  reflexivity.
Defined.

(** C9, as amended.  [renderHTML] sorts the array it is given in place:
    when it returns, the array holds the same records, as many as before,
    in the order in which their blocks appear in the fragment. *)
Theorem renderHTML_reorders_its_argument (entries : list (gmap string string)) :
  exists html shown blocks,
    renderHTML entries = Ok (html, shown)
    /\ Permutation shown entries
    /\ length shown = length entries
    /\ mapArray formatEntry shown = Ok blocks
    /\ html = join blocks.
Proof.
  destruct (renderHTML_blocks entries) as (blocks & Hblocks & Hrender).
  eexists _, _, blocks. split; [exact Hrender|].
  split; [apply sort_perm|].
  split; [apply Permutation_length, sort_perm|].
  split; [exact Hblocks|reflexivity].
Qed.

(** C9, as stated, fails: given the record of 2022 followed by the one of
    2024, [renderHTML] leaves the array in the other order. *)
Lemma renderHTML_changes_order :
  ~ (forall (entries shown : list (gmap string string)) (html : string),
        renderHTML entries = Ok (html, shown) -> shown = entries).
Proof.
  intros H.
  destruct (renderHTML_blocks [entry2022; entry2024]) as (blocks & _ & Hrender).
  specialize (H _ _ _ Hrender).
  assert (Hhead : head (sort compareYears [entry2022; entry2024]) = Some entry2024)
    by (vm_compute; reflexivity).
  rewrite H in Hhead.
  apply (f_equal (fun o => e ← o; getProp e "year")) in Hhead.
  vm_compute in Hhead. discriminate Hhead.
Qed.

(** C10.  The result of parsing depends on the year in which the parser
    runs: the same text gives its two entries in 2024, only the entry of
    2024 in 2026, and none in 2030.  The line-based copy with the cutoff
    reads the date in the same way. *)
Theorem parse_depends_on_the_year :
  (exists old new : gmap string string,
      parseBibtex 2024 twoEntries = Ok [old; new]
      /\ parseBibtex 2026 twoEntries = Ok [new]
      /\ parseBibtex 2030 twoEntries = Ok [])
  /\ (exists bibtex : string,
         LineParserCutoff.parseBibtex 2024 bibtex
         <> LineParserCutoff.parseBibtex 2030 bibtex).
Proof.
  split.
  - eexists _, _. repeat split; vm_compute; reflexivity.
  - exists twoEntries. vm_compute. intros H. discriminate H.
Qed.

End Claims.

(** ** The two line-based copies

    Where src/bibliography.js and the first script of
    src/unnamed/part_000 part from the behaviour proved above. *)

Section LineBasedCopies.

(** A header without an opening brace: [key] is [undefined] and
    [key.trim()] throws, in both copies. *)
Remark line_parsers_throw_on_header_without_brace :
  LineParser.parseBibtex "@article" = Throw TypeError
  /\ LineParserCutoff.parseBibtex 2024 "@article" = Throw TypeError
  /\ LineParser.main (Some "@article") = ErrorLogged.
Proof. repeat split; vm_compute; reflexivity. Qed.

(** A record without an author: [entry.author.replace] throws in the copy
    with the cutoff; src/bibliography.js prints [undefined]. *)
Remark cutoff_renderer_throws_without_author :
  LineParserCutoff.renderHTML [yearOnly "2024"] = Throw TypeError
  /\ exists html, LineParser.renderHTML [yearOnly "2024"] = Ok (html, [yearOnly "2024"])
                  /\ occursIn "undefined," html.
Proof.
  split; [vm_compute; reflexivity|].
  eexists. split; [reflexivity|].
  apply includesStr_occursIn. vm_compute. reflexivity.
Qed.

(** The cutoff of the line-based copy is strict, and is not applied to the
    last record of the file. *)
Remark cutoff_of_the_line_parser :
  (exists e2021 e2015,
      LineParserCutoff.parseBibtex 2024
        ("@a{x," +:+ nl +:+ "year = {2021}," +:+ nl
         +:+ "@a{y," +:+ nl +:+ "year = {2015},") = Ok [e2015]
      /\ getProp e2015 "year" = Some "2015"
      /\ SplitParser.parseBibtex 2024
           ("@a{x," +:+ nl +:+ "year = {2021}," +:+ nl
            +:+ "@a{y," +:+ nl +:+ "year = {2015},") = Ok [e2021]
      /\ getProp e2021 "year" = Some "2021").
Proof. eexists _, _. repeat split; vm_compute; reflexivity. Qed.

(** src/bibliography.js applies no cutoff and does not sort. *)
Remark line_parser_keeps_and_does_not_sort :
  (exists e2015, LineParser.parseBibtex ("@a{y," +:+ nl +:+ "year = {2015},") = Ok [e2015])
  /\ forall entries, exists html, LineParser.renderHTML entries = Ok (html, entries).
Proof.
  split; [eexists; vm_compute; reflexivity|].
  intros entries. eexists. reflexivity.
Qed.

(** For no entries the line-based copies return their wrapper. *)
Remark line_renderers_on_no_entries :
  LineParserCutoff.renderHTML [] = Ok (nl +:+ "        " +:+ nl +:+ "  ", [])
  /\ exists html, LineParser.renderHTML [] = Ok (html, [])
                  /\ occursIn "<title>BibTeX Entries</title>" html.
Proof.
  split; [reflexivity|]. eexists. split; [reflexivity|].
  apply includesStr_occursIn. vm_compute. reflexivity.
Qed.

(** The line-based copies keep the case of a field name, keep double
    quotes, and remove every comma of the value. *)
Remark line_parser_fields :
  exists entry,
    LineParser.readField ∅ ("Author = " +:+ dq +:+ "Doe, J. and Roe, K." +:+ dq +:+ ",")
    = Ok entry
    /\ getProp entry "author" = None
    /\ getProp entry "Author" = Some (dq +:+ "Doe J. and Roe K." +:+ dq).
Proof. eexists. repeat split; vm_compute; reflexivity. Qed.

(** In the splitting parser a body line named [key] replaces the key of
    the header, and a line named [__proto__] stores nothing. *)
Remark split_parser_special_names :
  (exists entry,
      SplitParser.parseEntry ("misc" +:+ nl +:+ "key = x") = Ok entry
      /\ getProp entry "key" = Some "x")
  /\ SplitParser.readField ∅ "__proto__ = x" = Ok ∅.
Proof.
  split; [eexists; split; vm_compute; reflexivity|].
  vm_compute. reflexivity.
Qed.

End LineBasedCopies.

(** ** Further properties of the code *)

(** *** Splitting and concatenation *)

Section SplitConcat.
Variable c : ascii.

Lemma app_cons (d : ascii) (a b : string) : String d a +:+ b = String d (a +:+ b).
Proof. reflexivity. Qed.

Lemma app_assoc_str (a b d : string) : (a +:+ b) +:+ d = a +:+ (b +:+ d).
Proof.
  induction a as [|x a IH]; [reflexivity|].
  rewrite !app_cons. by f_equal.
Qed.

Lemma includes_app (a b : string) :
  includes c (a +:+ b) = includes c a || includes c b.
Proof.
  induction a as [|d a IH]; [reflexivity|].
  rewrite app_cons. simpl. by rewrite IH, orb_assoc.
Qed.

Lemma split_app (a b : string) :
  split c (a +:+ String c b) = (split c a ++ split c b)%list.
Proof.
  induction a as [|d a IH].
  - rewrite app_empty_l. simpl. by rewrite Ascii.eqb_refl.
  - rewrite app_cons. simpl. destruct (Ascii.eqb d c).
    + by rewrite IH.
    + rewrite IH. destruct (split_cons c a) as (h & t & ->). reflexivity.
Qed.

Lemma beforeFirst_app (a b : string) :
  includes c a = false -> beforeFirst c (a +:+ String c b) = a.
Proof.
  induction a as [|d a IH]; simpl.
  - intros _. by rewrite Ascii.eqb_refl.
  - rewrite ?app_cons. simpl. destruct (Ascii.eqb d c); [discriminate|].
    intros H. by rewrite (IH H).
Qed.

Lemma afterFirst_app (a b : string) :
  includes c a = false -> afterFirst c (a +:+ String c b) = b.
Proof.
  induction a as [|d a IH]; simpl.
  - intros _. by rewrite Ascii.eqb_refl.
  - rewrite ?app_cons. simpl. destruct (Ascii.eqb d c); [discriminate|].
    intros H. by rewrite (IH H).
Qed.

Lemma beforeFirst_none (a : string) : includes c a = false -> beforeFirst c a = a.
Proof.
  induction a as [|d a IH]; simpl; [reflexivity|].
  destruct (Ascii.eqb d c); [discriminate|]. intros H. by rewrite (IH H).
Qed.

Lemma length_split (s : string) : length (split c s) = S (countChar c s).
Proof.
  induction s as [|d s IH]; [reflexivity|]. simpl.
  destruct (Ascii.eqb d c); simpl; [by rewrite IH|].
  destruct (split_cons c s) as (h & t & H). rewrite H in *. simpl in *. exact IH.
Qed.
End SplitConcat.

Section ParseSegments.
Import SplitParser.

Lemma rawEntries_app (a b : string) :
  rawEntries (a +:+ String "@" b) = (rawEntries a ++ rawEntries (String "@" b))%list.
Proof.
  unfold rawEntries. rewrite split_app.
  destruct (split_cons "@" a) as (h & t & ->). reflexivity.
Qed.

Lemma rawEntries_none (pre : string) : includes "@" pre = false -> rawEntries pre = [].
Proof. intros H. unfold rawEntries. by rewrite (split_no_separator _ _ H). Qed.

Lemma length_rawEntries (bibtex : string) :
  length (rawEntries bibtex) = countChar "@" bibtex.
Proof.
  unfold rawEntries. rewrite length_drop, length_split. lia.
Qed.

Lemma parsed_unique (raws : list string) (es1 es2 : list (gmap string string)) :
  Forall2 (fun raw e => parseEntry raw = Ok e) raws es1 ->
  Forall2 (fun raw e => parseEntry raw = Ok e) raws es2 ->
  es1 = es2.
Proof.
  intros H. revert es2. induction H as [|raw e raws es He _ IH]; intros es2 H2.
  - by inversion H2.
  - inversion H2 as [|? e' ? es' He' Hrest]; subst. f_equal; [congruence|by apply IH].
Qed.

Lemma parseBibtex_segments (currentYear : Z) (bibtex : string)
    (es : list (gmap string string)) :
  Forall2 (fun raw e => parseEntry raw = Ok e) (rawEntries bibtex) es ->
  parseBibtex currentYear bibtex = Ok (List.filter (recent (currentYear - 3)) es).
Proof.
  intros H. destruct (parseBibtex_filter currentYear bibtex) as (es' & H' & ->).
  by rewrite (parsed_unique _ _ _ H' H).
Qed.
End ParseSegments.

Section MoreOfTheSplittingParser.
Import SplitParser.

(** X1.  Whatever precedes the first [@] of the text is discarded: a text
    without [@] has no entries, and a prefix without [@] does not change
    the result. *)
Theorem text_before_first_entry_is_discarded
    (currentYear : Z) (pre : string) :
  includes "@" pre = false ->
  parseBibtex currentYear pre = Ok []
  /\ forall rest,
       parseBibtex currentYear (pre +:+ String "@" rest)
       = parseBibtex currentYear (String "@" rest).
Proof.
  intros H. split.
  - unfold parseBibtex. by rewrite (rawEntries_none _ H).
  - intros rest. unfold parseBibtex.
    by rewrite rawEntries_app, (rawEntries_none _ H).
Qed.

Lemma text_before_first_entry_is_discarded_witness :
  parseBibtex 2024 "% my papers " = Ok []
  /\ forall rest,
       parseBibtex 2024 ("% my papers " +:+ String "@" rest)
       = parseBibtex 2024 (String "@" rest).
Proof.
  apply (text_before_first_entry_is_discarded 2024 "% my papers ").
  reflexivity.
Defined.

(** X2.  Parsing distributes over the concatenation of two texts at an
    [@]: the entries of the whole are those of the first part followed by
    those of the second. *)
Theorem parse_concatenation (currentYear : Z) (a b : string) :
  exists ea eb,
    parseBibtex currentYear a = Ok ea
    /\ parseBibtex currentYear (String "@" b) = Ok eb
    /\ parseBibtex currentYear (a +:+ String "@" b) = Ok (ea ++ eb)%list.
Proof.
  destruct (parseBibtex_filter currentYear a) as (ea & Ha & ->).
  destruct (parseBibtex_filter currentYear (String "@" b)) as (eb & Hb & ->).
  eexists _, _. split; [reflexivity|]. split; [reflexivity|].
  rewrite (parseBibtex_segments currentYear _ (ea ++ eb)%list).
  - by rewrite List.filter_app.
  - rewrite rawEntries_app. by apply Forall2_app.
Qed.

Lemma parseInt_shape (s : string) :
  parseInt s = NaN \/ exists z, parseInt s = ofZ z.
Proof.
  unfold parseInt.
  repeat match goal with
         | |- context [let '(_, _) := ?x in _] => destruct x
         end.
  destruct (fst (spanDigits _ _)); eauto.
Qed.

Lemma recent_inv (limYear : Z) (entry : gmap string string) :
  recent limYear entry = true ->
  exists y z, getProp entry "year" = Some y /\ y <> EmptyString
              /\ parseInt y = ofZ z /\ (limYear <= z)%Z.
Proof.
  unfold recent. destruct (getProp entry "year") as [y|]; simpl; [|discriminate].
  intros [Hne Hge]%andb_prop.
  destruct (parseInt_shape y) as [HN|[z Hz]].
  - rewrite HN in Hge. discriminate.
  - rewrite Hz, ge_ofZ in Hge. exists y, z. repeat split; try assumption; [|lia].
    intros ->. discriminate.
Qed.

Lemma recent_mono (lim1 lim2 : Z) (entry : gmap string string) :
  (lim1 <= lim2)%Z -> recent lim2 entry = true -> recent lim1 entry = true.
Proof.
  intros Hle H. destruct (recent_inv _ _ H) as (y & z & Hy & Hne & Hz & Hlim).
  unfold recent. rewrite Hy. simpl. rewrite Hz, ge_ofZ.
  destruct (String.eqb_spec y EmptyString); [contradiction|]. simpl. lia.
Qed.

Lemma filter_filter_implied {A : Type} (p q : A -> bool) (l : list A) :
  (forall x, q x = true -> p x = true) ->
  List.filter q (List.filter p l) = List.filter q l.
Proof.
  intros Hpq. induction l as [|x l IH]; [reflexivity|]. simpl.
  destruct (p x) eqn:Hp; simpl; rewrite IH; [reflexivity|].
  destruct (q x) eqn:Hq; [|reflexivity]. rewrite (Hpq x Hq) in Hp. discriminate.
Qed.

Lemma filter_length_le {A : Type} (p : A -> bool) (l : list A) :
  (length (List.filter p l) <= length l)%nat.
Proof.
  induction l as [|x l IH]; simpl; [lia|]. destruct (p x); simpl; lia.
Qed.

(** X3.  Every record that [parseBibtex] returns is the record of a
    segment of the text and has a non-empty [year] that begins with an
    integer at least the current year minus 3; there is at most one
    record for each [@] of the text. *)
Theorem returned_entries_are_recent (currentYear : Z) (bibtex : string) :
  exists entries,
    parseBibtex currentYear bibtex = Ok entries
    /\ (length entries <= countChar "@" bibtex)%nat
    /\ forall e, In e entries ->
         exists raw y z,
           In raw (rawEntries bibtex) /\ parseEntry raw = Ok e
           /\ getProp e "year" = Some y /\ y <> EmptyString
           /\ parseInt y = ofZ z /\ (currentYear - 3 <= z)%Z.
Proof.
  destruct (parseBibtex_filter currentYear bibtex) as (es & HF & ->).
  eexists. split; [reflexivity|]. split.
  - rewrite <- length_rawEntries, (Forall2_length _ _ _ HF).
    apply filter_length_le.
  - intros e [Hin Hrecent]%filter_In.
    destruct (Forall2_In_r _ _ _ e HF Hin) as (raw & Hraw & He).
    destruct (recent_inv _ _ Hrecent) as (y & z & ? & ? & ? & ?).
    exists raw, y, z. repeat split; assumption.
Qed.

(** X4.  In a later year the parser returns what it returned in an
    earlier year, less the records that have fallen behind the cutoff; no
    record appears that was not returned before. *)
Theorem later_year_returns_fewer (year1 year2 : Z) (bibtex : string) :
  (year1 <= year2)%Z ->
  exists entries1 entries2,
    parseBibtex year1 bibtex = Ok entries1
    /\ parseBibtex year2 bibtex = Ok entries2
    /\ entries2 = List.filter (recent (year2 - 3)) entries1
    /\ forall e, In e entries2 -> In e entries1.
Proof.
  intros Hle.
  destruct (parseBibtex_filter year1 bibtex) as (es & HF & ->).
  rewrite (parseBibtex_segments year2 bibtex es HF).
  eexists _, _. split; [reflexivity|]. split; [reflexivity|].
  assert (Hff : List.filter (recent (year2 - 3)) (List.filter (recent (year1 - 3)) es)
                = List.filter (recent (year2 - 3)) es).
  { apply filter_filter_implied. intros x. apply recent_mono. lia. }
  split; [by rewrite Hff|].
  intros e. rewrite <- Hff. by intros [? _]%filter_In.
Qed.

Lemma later_year_returns_fewer_witness :
  exists entries1 entries2,
    parseBibtex 2024 twoEntries = Ok entries1
    /\ parseBibtex 2026 twoEntries = Ok entries2
    /\ entries2 = List.filter (recent (2026 - 3)) entries1
    /\ forall e, In e entries2 -> In e entries1.
Proof.
  apply (later_year_returns_fewer 2024 2026 twoEntries). lia.
Defined.

Lemma setProp_is_Some (o : gmap string string) (name value n : string) :
  is_Some (getProp o n) -> is_Some (getProp (setProp o name value) n).
Proof.
  intros H. unfold setProp, getProp in *.
  destruct (String.eqb name "__proto__"); [exact H|].
  destruct (decide (name = n)) as [->|Hne].
  - rewrite lookup_insert_eq. eauto.
  - by rewrite lookup_insert_ne.
Qed.

Lemma forEach_readField_is_Some (n : string) (lines : list string) :
  forall entry entry', forEach readField lines entry = Ok entry' ->
  is_Some (getProp entry n) -> is_Some (getProp entry' n).
Proof.
  induction lines as [|line lines IH]; simpl; intros entry entry'.
  - by intros [= <-].
  - destruct (readField_total entry line) as [e1 H1]. rewrite H1. simpl.
    intros H Hn. apply (IH _ _ H).
    destruct (includes "=" (trim line)) eqn:Hinc.
    + rewrite (readField_assigns _ _ Hinc) in H1. injection H1 as <-.
      by apply setProp_is_Some.
    + rewrite (readField_skips _ _ Hinc) in H1. by injection H1 as <-.
Qed.

(** X5.  The record of every segment, however malformed, has a [type] and
    a [key] property. *)
Theorem every_record_has_type_and_key (raw : string) :
  exists entry,
    parseEntry raw = Ok entry
    /\ is_Some (getProp entry "type") /\ is_Some (getProp entry "key").
Proof.
  destruct (parseEntry_total raw) as [entry Hentry]. exists entry.
  split; [exact Hentry|].
  unfold parseEntry in Hentry. rewrite split_first in Hentry.
  destruct (entryOfHeader_total (beforeFirst "010" raw)) as [k Hk].
  rewrite Hk in Hentry. simpl in Hentry.
  split; apply (forEach_readField_is_Some _ _ _ _ Hentry); unfold getProp.
  - rewrite lookup_insert_ne by discriminate. rewrite lookup_insert_eq. eauto.
  - rewrite lookup_insert_eq. eauto.
Qed.

End MoreOfTheSplittingParser.

(** *** Lines and values *)

Section MoreTrimFacts.
Variable c : ascii.
Hypothesis c_not_white : isWhiteSpace c = false.

Lemma afterFirst_trimStart (s : string) :
  afterFirst c (trimStart s) = afterFirst c s.
Proof.
  induction s as [|d s IH]; simpl; [reflexivity|].
  destruct (isWhiteSpace d) eqn:Hd; [|reflexivity].
  by rewrite (white_not_c c c_not_white d Hd).
Qed.

Lemma includes_afterFirst (s : string) :
  includes c (afterFirst c s) = true -> includes c s = true.
Proof.
  induction s as [|d s IH]; simpl; [discriminate|].
  destruct (Ascii.eqb d c); simpl; [reflexivity|exact IH].
Qed.

Lemma trimEnd_cons (d : ascii) (s : string) :
  includes c s = true -> trimEnd (String d s) = String d (trimEnd s).
Proof.
  intros Hs. pose proof (includes_trimEnd c c_not_white s) as Hinc.
  rewrite Hs in Hinc. simpl. by destruct (trimEnd s).
Qed.

Lemma second_part_trimEnd (s : string) :
  includes c (afterFirst c s) = true ->
  beforeFirst c (afterFirst c (trimEnd s)) = beforeFirst c (afterFirst c s).
Proof.
  induction s as [|d s IH]; [discriminate|].
  intros H.
  assert (Hs : includes c s = true).
  { simpl in H. destruct (Ascii.eqb d c); [exact H|by apply includes_afterFirst]. }
  rewrite (trimEnd_cons d s Hs). simpl in *. destruct (Ascii.eqb d c).
  - by apply beforeFirst_trimEnd.
  - by apply IH.
Qed.

Lemma trimEnd_eq (d : ascii) (s : string) :
  trimEnd (String d s)
  = match trimEnd s with
    | EmptyString => if isWhiteSpace d then EmptyString else String d EmptyString
    | t => String d t
    end.
Proof. reflexivity. Qed.

Lemma trimEnd_idem (s : string) : trimEnd (trimEnd s) = trimEnd s.
Proof.
  induction s as [|d s IH]; [reflexivity|]. rewrite trimEnd_eq.
  destruct (trimEnd s) as [|e t] eqn:Ht.
  - destruct (isWhiteSpace d) eqn:Hd; [reflexivity|]. simpl. by rewrite Hd.
  - by rewrite trimEnd_eq, IH.
Qed.
End MoreTrimFacts.

Section TrimIdempotent.

Lemma trimStart_trimEnd (s : string) :
  trimStart (trimEnd (trimStart s)) = trimEnd (trimStart s).
Proof.
  induction s as [|d s IH]; [reflexivity|]. simpl.
  destruct (isWhiteSpace d) eqn:Hd; [exact IH|].
  rewrite trimEnd_eq. destruct (trimEnd s); rewrite ?Hd; simpl; by rewrite Hd.
Qed.

Lemma trim_idem (s : string) : trim (trim s) = trim s.
Proof.
  unfold trim. rewrite trimStart_trimEnd. apply trimEnd_idem.
Qed.

Lemma removeAll_excludes (cls : ascii -> bool) (c : ascii) (s : string) :
  cls c = true -> includes c (removeAll cls s) = false.
Proof.
  intros Hc. induction s as [|d s IH]; [reflexivity|]. simpl.
  destruct (cls d) eqn:Hd; [exact IH|]. simpl. rewrite IH.
  destruct (Ascii.eqb_spec d c) as [->|]; [congruence|reflexivity].
Qed.

Lemma removeTrailingComma_excludes (c : ascii) (s : string) :
  includes c s = false -> includes c (removeTrailingComma s) = false.
Proof.
  induction s as [|d s IH]; [reflexivity|]. simpl.
  intros [Hd Hs]%orb_false_elim. destruct s as [|e s].
  - destruct (Ascii.eqb d ","); [reflexivity|]. simpl. by rewrite Hd.
  - cbn [includes]. by rewrite Hd, (IH Hs).
Qed.

Lemma removeFirst_snoc (c : ascii) (k : string) :
  includes c k = false -> removeFirst c (k +:+ String c EmptyString) = k.
Proof.
  induction k as [|d k IH]; simpl.
  - intros _. by rewrite Ascii.eqb_refl.
  - rewrite ?app_cons. simpl. destruct (Ascii.eqb d c); [discriminate|].
    intros H. by rewrite (IH H).
Qed.

Lemma brace_or_quote (c : ascii) :
  inClass ("{}" +:+ dq) c = true ->
  isWhiteSpace c = false /\ Ascii.eqb c "," = false.
Proof.
  destruct c as [[] [] [] [] [] [] [] []]; vm_compute; intros H;
    try discriminate H; split; reflexivity.
Qed.
End TrimIdempotent.

Section LinesAndValues.
Import SplitParser.

(** X6.  A segment that is just the header [TYPE{KEY,] gives the record
    whose type is [TYPE] and whose key is [KEY], both trimmed. *)
Theorem header_gives_type_and_key (t k : string) :
  includes "{" t = false -> includes "010" t = false ->
  includes "{" k = false -> includes "010" k = false ->
  includes "," k = false ->
  parseEntry (t +:+ String "{" (k +:+ ","))
  = Ok (<["key" := trim k]> (<["type" := trim t]> ∅)).
Proof.
  intros Ht Htn Hk Hkn Hkc.
  assert (Hline : includes "010" (t +:+ String "{" (k +:+ ",")) = false).
  { rewrite includes_app, Htn. simpl. by rewrite includes_app, Hkn. }
  assert (Hrest : includes "{" (k +:+ ",") = false).
  { by rewrite includes_app, Hk. }
  unfold parseEntry. rewrite (split_no_separator _ _ Hline). simpl.
  unfold entryOfHeader. simpl.
  rewrite split_app, (split_no_separator _ _ Ht), (split_no_separator _ _ Hrest).
  simpl.
  replace (String.eqb (k +:+ ",") EmptyString) with false
    by (by destruct k).
  simpl. by rewrite (removeFirst_snoc "," k Hkc).
Qed.

Lemma header_gives_type_and_key_witness :
  parseEntry (" article" +:+ String "{" ("doe2023 " +:+ ","))
  = Ok (<["key" := trim "doe2023 "]> (<["type" := trim " article"]> ∅)).
Proof.
  apply (header_gives_type_and_key " article" "doe2023 "); reflexivity.
Defined.

(** X7.  A line is cut at its second [=]: the value stored is the text
    between the first and the second [=], stripped, and what follows the
    second [=] is lost. *)
Theorem value_is_cut_at_second_equals
    (entry : gmap string string) (k v rest : string) :
  includes "=" k = false -> includes "=" v = false ->
  readField entry (k +:+ String "=" (v +:+ String "=" rest))
  = Ok (setProp entry (toLowerCase (trim k)) (stripValue v)).
Proof.
  intros Hk Hv.
  set (line := k +:+ String "=" (v +:+ String "=" rest)).
  assert (Hline : includes "=" line = true).
  { unfold line. rewrite includes_app. simpl. by rewrite orb_true_r. }
  assert (Htrim : includes "=" (trim line) = true)
    by (by rewrite includes_trim).
  rewrite (readField_assigns _ _ Htrim).
  rewrite (trim_beforeFirst_trim "=" eq_refl line Hline).
  assert (Hafter : afterFirst "=" line = v +:+ String "=" rest)
    by (by apply afterFirst_app).
  assert (Hvalue : beforeFirst "=" (afterFirst "=" (trim line)) = v).
  { unfold trim. rewrite second_part_trimEnd; [|reflexivity|].
    - rewrite afterFirst_trimStart by reflexivity.
      rewrite Hafter. by apply beforeFirst_app.
    - rewrite afterFirst_trimStart by reflexivity.
      rewrite Hafter, includes_app. simpl. by rewrite orb_true_r. }
  rewrite Hvalue. unfold line. by rewrite (beforeFirst_app "=" k _ Hk).
Qed.

Lemma value_is_cut_at_second_equals_witness :
  readField ∅ ("url " +:+ String "=" (" {http://x.org/?id" +:+ String "=" "7},"))
  = Ok (setProp ∅ (toLowerCase (trim "url ")) (stripValue " {http://x.org/?id")).
Proof.
  apply (value_is_cut_at_second_equals ∅ "url " " {http://x.org/?id" "7},");
    reflexivity.
Defined.

Lemma setProp_twice (o : gmap string string) (name v1 v2 : string) :
  setProp (setProp o name v1) name v2 = setProp o name v2.
Proof.
  unfold setProp. destruct (String.eqb name "__proto__"); [reflexivity|].
  apply insert_insert_eq.
Qed.

(** X8.  When two lines name the same field, letter case apart, reading
    the second after the first gives what the second alone gives: a
    repeated field keeps only its last value. *)
Theorem repeated_field_keeps_last
    (entry : gmap string string) (line1 line2 : string) :
  includes "=" line1 = true -> includes "=" line2 = true ->
  toLowerCase (trim (beforeFirst "=" line1))
  = toLowerCase (trim (beforeFirst "=" line2)) ->
  (entry1 ← readField entry line1; readField entry1 line2)
  = readField entry line2.
Proof.
  intros H1 H2 Hname.
  assert (T1 : includes "=" (trim line1) = true) by (by rewrite includes_trim).
  assert (T2 : includes "=" (trim line2) = true) by (by rewrite includes_trim).
  rewrite (readField_assigns _ _ T1). simpl.
  rewrite !(readField_assigns _ _ T2).
  rewrite (trim_beforeFirst_trim "=" eq_refl line1 H1).
  rewrite (trim_beforeFirst_trim "=" eq_refl line2 H2).
  rewrite Hname. by rewrite setProp_twice.
Qed.

Lemma repeated_field_keeps_last_witness :
  (entry1 ← readField entry2022 "Year = 1999,"; readField entry1 " year = {2001}")
  = readField entry2022 " year = {2001}".
Proof.
  apply (repeated_field_keeps_last entry2022 "Year = 1999," " year = {2001}");
    reflexivity.
Defined.

(** X9.  A stripped value holds no brace and no double quote, and has no
    white space at either end. *)
Theorem stripped_value_is_clean (v : string) :
  (forall c, inClass ("{}" +:+ dq) c = true -> includes c (stripValue v) = false)
  /\ trim (stripValue v) = stripValue v.
Proof.
  split.
  - intros c Hc. destruct (brace_or_quote c Hc) as [Hw _].
    unfold stripValue. rewrite (includes_trim c Hw).
    apply removeTrailingComma_excludes. by apply removeAll_excludes.
  - unfold stripValue. apply trim_idem.
Qed.

End LinesAndValues.

(** *** The renderer of the splitting parser *)

Section SortMap.
Context {A : Type} (comparefn : A -> A -> number) (f : A -> A).
Hypothesis compare_f : forall a b, comparefn (f a) (f b) = comparefn a b.

Lemma insertSorted_map (x : A) (l : list A) :
  insertSorted comparefn (f x) (map f l) = map f (insertSorted comparefn x l).
Proof.
  induction l as [|y l IH]; [reflexivity|]. simpl.
  unfold sortsAfter. rewrite compare_f. fold (sortsAfter comparefn x y).
  destruct (sortsAfter comparefn x y); simpl; [by rewrite IH|reflexivity].
Qed.

Lemma sort_map (l : list A) : sort comparefn (map f l) = map f (sort comparefn l).
Proof.
  induction l as [|x l IH]; [reflexivity|]. simpl.
  fold (sort comparefn (map f l)). fold (sort comparefn l).
  by rewrite IH, insertSorted_map.
Qed.
End SortMap.

Section MoreOfTheRenderer.
Import SplitParser.

Lemma mapArray_map {A B : Type} (g : A -> result B) (f : A -> A) (l : list A) :
  (forall x, g (f x) = g x) -> mapArray g (map f l) = mapArray g l.
Proof.
  intros H. induction l as [|x l IH]; [reflexivity|]. simpl. by rewrite H, IH.
Qed.

Lemma occursIn_here (n post : string) : occursIn n (n +:+ post).
Proof. by exists EmptyString, post. Qed.

Lemma occursIn_after (a n h : string) : occursIn n h -> occursIn n (a +:+ h).
Proof.
  intros (pre & post & ->). exists (a +:+ pre), post. by rewrite app_assoc_str.
Qed.

Lemma occursIn_before (b n h : string) : occursIn n h -> occursIn n (h +:+ b).
Proof.
  intros (pre & post & ->). exists pre, (post +:+ b).
  by rewrite !app_assoc_str.
Qed.

Lemma occursIn_self (n : string) : occursIn n n.
Proof.
  exists EmptyString, EmptyString. rewrite app_empty_l.
  induction n as [|x n IH]; [reflexivity|]. rewrite app_cons. by f_equal.
Qed.

Lemma occursIn_prefix (a b post : string) : occursIn (a +:+ b) (a +:+ b +:+ post).
Proof. exists EmptyString, post. by rewrite app_empty_l, app_assoc_str. Qed.

Lemma occursIn_prefix3 (a b d post : string) :
  occursIn (a +:+ b +:+ d) (a +:+ b +:+ d +:+ post).
Proof. exists EmptyString, post. by rewrite app_empty_l, !app_assoc_str. Qed.

Ltac find_occurrence :=
  first [ apply occursIn_self
        | apply occursIn_here
        | apply occursIn_prefix3
        | apply occursIn_prefix
        | apply occursIn_after; find_occurrence
        | apply occursIn_before; find_occurrence ].

(** The block of a record, with the text that stands for its authors. *)
Lemma formatEntry_shape (entry : gmap string string) :
  exists author,
    formatEntry entry
    = Ok (nl +:+ "      <div class=" +:+ dq +:+ "entry mb-2" +:+ dq +:+ ">"
          +:+ nl +:+ "        <p>"
          +:+ nl +:+ "          " +:+ author +:+ ", "
          +:+ (if truthy (getProp entry "title")
               then "<i>" +:+ dq +:+ toStr (getProp entry "title") +:+ dq +:+ "</i>"
               else "Untitled")
          +:+ ". "
          +:+ toStr (orElse (orElse (orElse (orElse (getProp entry "journal")
                                                    (getProp entry "booktitle"))
                                            (getProp entry "publisher"))
                                    (getProp entry "howpublished"))
                            (Some EmptyString))
          +:+ ", "
          +:+ toStr (orElse (getProp entry "year") (Some EmptyString)) +:+ ". "
          +:+ (if truthy (getProp entry "doi")
               then "<a href=" +:+ dq +:+ "https://doi.org/"
                    +:+ toStr (getProp entry "doi") +:+ dq
                    +:+ " target=" +:+ dq +:+ "_blank" +:+ dq +:+ ">"
                    +:+ toStr (getProp entry "doi") +:+ "</a>"
               else EmptyString)
          +:+ nl +:+ "        </p>"
          +:+ nl +:+ "      </div>"
          +:+ nl +:+ "    ").
Proof.
  unfold formatEntry. destruct (getProp entry "author") as [a|]; simpl.
  - destruct (negb (String.eqb a EmptyString)); simpl; eexists; reflexivity.
  - eexists; reflexivity.
Qed.

Lemma block_not_empty (entry : gmap string string) (block : string) :
  formatEntry entry = Ok block -> exists rest, block = String "010" rest.
Proof.
  destruct (formatEntry_shape entry) as [author ->]. intros [= <-].
  eexists. reflexivity.
Qed.

(** X10.  The fragment does not depend on any property other than
    [author], [title], [journal], [booktitle], [publisher],
    [howpublished], [year] and [doi]: setting another property in every
    record changes neither the order nor the text. *)
Theorem unknown_fields_are_not_rendered
    (entries : list (gmap string string)) (name value : string) :
  ~ In name renderedFields ->
  exists html shown,
    renderHTML entries = Ok (html, shown)
    /\ renderHTML (map (fun e => setProp e name value) entries)
       = Ok (html, map (fun e => setProp e name value) shown).
Proof.
  intros Hname.
  assert (Hget : forall e n, In n renderedFields ->
                   getProp (setProp e name value) n = getProp e n).
  { intros e n Hn. apply setProp_other. intros ->. contradiction. }
  assert (Hcmp : forall a b, compareYears (setProp a name value) (setProp b name value)
                             = compareYears a b).
  { intros a b. unfold compareYears, yearOrZero.
    by rewrite !Hget by (simpl; tauto). }
  assert (Hfmt : forall e, formatEntry (setProp e name value) = formatEntry e).
  { intros e. unfold formatEntry. by rewrite !Hget by (simpl; tauto). }
  destruct (renderHTML_blocks entries) as (blocks & Hblocks & Hrender).
  eexists _, _. split; [exact Hrender|].
  unfold renderHTML. rewrite (sort_map compareYears _ Hcmp).
  rewrite (mapArray_map formatEntry _ _ Hfmt), Hblocks. reflexivity.
Qed.

Lemma unknown_fields_are_not_rendered_witness :
  exists html shown,
    renderHTML [entry2022; entry2024] = Ok (html, shown)
    /\ renderHTML (map (fun e => setProp e "abstract" "x") [entry2022; entry2024])
       = Ok (html, map (fun e => setProp e "abstract" "x") shown).
Proof.
  apply (unknown_fields_are_not_rendered [entry2022; entry2024] "abstract" "x").
  simpl. intros H. repeat (destruct H as [H|H]; [discriminate H|]). exact H.
Defined.

(** X11.  Every record contributes a block that is not empty: the fragment
    is the empty string only when there is no record at all. *)
Theorem fragment_empty_only_without_entries (entries : list (gmap string string)) :
  exists html shown,
    renderHTML entries = Ok (html, shown)
    /\ (html = EmptyString <-> entries = []).
Proof.
  destruct (renderHTML_blocks entries) as (blocks & Hblocks & Hrender).
  eexists _, _. split; [exact Hrender|]. split.
  - intros Hempty. destruct entries as [|e entries]; [reflexivity|].
    pose proof (Permutation_length (sort_perm compareYears (e :: entries))) as Hlen.
    destruct (sort compareYears (e :: entries)) as [|x xs]; [discriminate Hlen|].
    simpl in Hblocks. destruct (formatEntry x) as [b|] eqn:Hb; [|discriminate].
    simpl in Hblocks. destruct (mapArray formatEntry xs); [|discriminate].
    injection Hblocks as <-. destruct (block_not_empty _ _ Hb) as [rest ->].
    discriminate Hempty.
  - intros ->. simpl in Hblocks. by injection Hblocks as <-.
Qed.

(** X12.  Rendering again the array that a first call has left gives the
    same fragment and leaves the array as it is, when the years are
    numbers or missing. *)
Theorem rendering_twice (entries : list (gmap string string)) :
  Forall plainYear entries ->
  exists html shown,
    renderHTML entries = Ok (html, shown)
    /\ renderHTML shown = Ok (html, shown).
Proof.
  intros Hplain.
  destruct (renderHTML_blocks entries) as (blocks & Hblocks & Hrender).
  eexists _, _. split; [exact Hrender|].
  unfold renderHTML.
  rewrite (sort_descending_id compareYears numericYear plainYear compareYears_plain).
  - by rewrite Hblocks.
  - by apply sort_Forall.
  - by apply (sort_descending compareYears numericYear plainYear compareYears_plain).
Qed.

Lemma rendering_twice_witness :
  exists html shown,
    renderHTML [entry2022; entry2024] = Ok (html, shown)
    /\ renderHTML shown = Ok (html, shown).
Proof.
  apply (rendering_twice [entry2022; entry2024]).
  repeat constructor; vm_compute; lia.
Defined.

(** X13.  Title and DOI go into the markup as they are, whatever
    characters they hold: nothing is escaped. *)
Theorem title_and_doi_are_copied_verbatim
    (entry : gmap string string) (title doi : string) :
  getProp entry "title" = Some title -> title <> EmptyString ->
  getProp entry "doi" = Some doi -> doi <> EmptyString ->
  exists block,
    formatEntry entry = Ok block
    /\ occursIn ("<i>" +:+ dq +:+ title +:+ dq +:+ "</i>") block
    /\ occursIn ("https://doi.org/" +:+ doi +:+ dq) block
    /\ occursIn (">" +:+ doi +:+ "</a>") block.
Proof.
  intros Ht Htne Hd Hdne.
  destruct (formatEntry_shape entry) as [author ->].
  eexists. split; [reflexivity|].
  rewrite Ht, Hd. simpl truthy. simpl toStr.
  destruct (String.eqb_spec title EmptyString); [contradiction|].
  destruct (String.eqb_spec doi EmptyString); [contradiction|].
  simpl negb. cbv iota.
  repeat split; find_occurrence.
Qed.

Lemma title_and_doi_are_copied_verbatim_witness :
  exists block,
    formatEntry (<["doi" := "10.1/x<y"]> (<["title" := "A <b>Study</b>"]> ∅)) = Ok block
    /\ occursIn ("<i>" +:+ dq +:+ "A <b>Study</b>" +:+ dq +:+ "</i>") block
    /\ occursIn ("https://doi.org/" +:+ "10.1/x<y" +:+ dq) block
    /\ occursIn (">" +:+ "10.1/x<y" +:+ "</a>") block.
Proof.
  apply (title_and_doi_are_copied_verbatim
           (<["doi" := "10.1/x<y"]> (<["title" := "A <b>Study</b>"]> ∅))
           "A <b>Study</b>" "10.1/x<y");
    [vm_compute; reflexivity|discriminate|vm_compute; reflexivity|discriminate].
Defined.

End MoreOfTheRenderer.

(** *** The line-based copies *)

Section Loops.

Lemma forEach_throws {S A : Type} (body : S -> A -> result S) (bad : A -> bool) :
  (forall s x, bad x = true -> body s x = Throw TypeError) ->
  (forall s x, bad x = false -> exists s', body s x = Ok s') ->
  forall xs s,
    if existsb bad xs
    then forEach body xs s = Throw TypeError
    else exists s', forEach body xs s = Ok s'.
Proof.
  intros Hbad Hgood xs. induction xs as [|x xs IH]; intros s; simpl; [eauto|].
  destruct (bad x) eqn:Hx; simpl.
  - by rewrite (Hbad s x Hx).
  - destruct (Hgood s x Hx) as [s' ->]. simpl. apply IH.
Qed.

Lemma mapArray_throws {A B : Type} (f : A -> result B) (xs : list A) :
  mapArray f xs = Throw TypeError <-> exists x, In x xs /\ f x = Throw TypeError.
Proof.
  induction xs as [|x xs IH]; simpl.
  - split; [discriminate|]. by intros (? & [] & _).
  - destruct (f x) as [y|[]] eqn:Hx; simpl.
    + destruct (mapArray f xs) as [ys|[]]; simpl.
      * split; [discriminate|]. intros (z & [<-|Hz] & Hf); [congruence|].
        assert (H : @Ok (list B) ys = Throw TypeError) by (apply IH; eauto).
        discriminate H.
      * split; [|reflexivity]. intros _.
        destruct (proj1 IH eq_refl) as (z & Hz & Hf). eauto.
    + split; [|reflexivity]. intros _. exists x. auto.
Qed.
End Loops.

Section MoreOfTheLineParsers.

Lemma hasKeys_insert (o : gmap string string) (name value : string) :
  hasKeys (<[name := value]> o) = true.
Proof.
  unfold hasKeys. rewrite bool_decide_eq_false_2; [reflexivity|].
  apply insert_non_empty.
Qed.

Lemma hasKeys_setProp (o : gmap string string) (name value : string) :
  hasKeys o = true -> hasKeys (setProp o name value) = true.
Proof.
  intros H. unfold setProp. destruct (String.eqb name "__proto__"); [exact H|].
  apply hasKeys_insert.
Qed.

Lemma openEntry_without_brace (line : string) :
  includes "{" (substring1 line) = false ->
  LineParser.openEntry line = Throw TypeError.
Proof.
  intros H. unfold LineParser.openEntry.
  rewrite split_first, (split_second_none _ _ H). reflexivity.
Qed.

Lemma openEntry_with_brace (line : string) :
  includes "{" (substring1 line) = true ->
  exists e, LineParser.openEntry line = Ok e /\ hasKeys e = true.
Proof.
  intros H. unfold LineParser.openEntry.
  rewrite split_first, (split_second _ _ H). simpl.
  eexists. split; [reflexivity|]. apply hasKeys_insert.
Qed.

Lemma line_readField_ok (cur : gmap string string) (line : string) :
  includes "=" line = true ->
  LineParser.readField cur line
  = Ok (setProp cur (trim (beforeFirst "=" line))
          (removeAll (inClass "{},") (trim (beforeFirst "=" (afterFirst "=" line))))).
Proof.
  intros H. unfold LineParser.readField.
  rewrite split_first, (split_second _ _ H). reflexivity.
Qed.

Lemma header_brace (line : string) :
  startsWith "@" line = true ->
  includes "{" (substring1 line) = includes "{" line.
Proof.
  destruct line as [|d line]; [discriminate|]. simpl.
  intros ->%Ascii.eqb_eq. reflexivity.
Qed.

Lemma line_step_throws (st : list (gmap string string) * gmap string string)
    (line : string) :
  headerWithoutBrace line = true -> LineParser.step st line = Throw TypeError.
Proof.
  unfold headerWithoutBrace. intros [Hat Hbrace%negb_true_iff]%andb_prop.
  destruct st as [entries cur]. unfold LineParser.step. rewrite Hat.
  rewrite openEntry_without_brace; [reflexivity|]. by rewrite header_brace.
Qed.

Lemma line_step_ok (st : list (gmap string string) * gmap string string)
    (line : string) :
  headerWithoutBrace line = false -> exists st', LineParser.step st line = Ok st'.
Proof.
  unfold headerWithoutBrace. intros H.
  destruct st as [entries cur]. unfold LineParser.step.
  destruct (startsWith "@" (trim line)) eqn:Hat; simpl in H.
  - apply negb_false_iff in H. rewrite <- header_brace in H by assumption.
    destruct (openEntry_with_brace _ H) as (e & -> & _). simpl. eauto.
  - destruct (includes "=" (trim line)) eqn:Heq; [|eauto].
    rewrite (line_readField_ok _ _ Heq). simpl. eauto.
Qed.

Lemma cutoff_step_throws (currentYear : Z)
    (st : list (gmap string string) * gmap string string) (line : string) :
  headerWithoutBrace line = true ->
  LineParserCutoff.step currentYear st line = Throw TypeError.
Proof.
  unfold headerWithoutBrace. intros [Hat Hbrace%negb_true_iff]%andb_prop.
  destruct st as [entries cur]. unfold LineParserCutoff.step. rewrite Hat.
  rewrite openEntry_without_brace; [reflexivity|]. by rewrite header_brace.
Qed.

Lemma cutoff_step_ok (currentYear : Z)
    (st : list (gmap string string) * gmap string string) (line : string) :
  headerWithoutBrace line = false ->
  exists st', LineParserCutoff.step currentYear st line = Ok st'.
Proof.
  unfold headerWithoutBrace. intros H.
  destruct st as [entries cur]. unfold LineParserCutoff.step.
  destruct (startsWith "@" (trim line)) eqn:Hat; simpl in H.
  - apply negb_false_iff in H. rewrite <- header_brace in H by assumption.
    destruct (openEntry_with_brace _ H) as (e & -> & _). simpl. eauto.
  - destruct (includes "=" (trim line)) eqn:Heq; [|eauto].
    rewrite (line_readField_ok _ _ Heq). simpl. eauto.
Qed.

(** X14.  Both line-based parsers throw exactly when some line of the
    text opens an entry without an opening brace; on every other text
    they return an array. *)
Theorem line_parsers_throw_exactly_on_header_without_brace (bibtex : string) :
  (LineParser.parseBibtex bibtex = Throw TypeError
   <-> existsb headerWithoutBrace (split "010" bibtex) = true)
  /\ (forall currentYear,
         LineParserCutoff.parseBibtex currentYear bibtex = Throw TypeError
         <-> existsb headerWithoutBrace (split "010" bibtex) = true).
Proof.
  split; [|intros currentYear].
  - pose proof (forEach_throws LineParser.step headerWithoutBrace
                  line_step_throws line_step_ok (split "010" bibtex) ([], ∅)) as H.
    unfold LineParser.parseBibtex.
    destruct (existsb headerWithoutBrace (split "010" bibtex)).
    + rewrite H. by split.
    + destruct H as [[entries cur] ->]. simpl. split; discriminate.
  - pose proof (forEach_throws (LineParserCutoff.step currentYear) headerWithoutBrace
                  (cutoff_step_throws currentYear) (cutoff_step_ok currentYear)
                  (split "010" bibtex) ([], ∅)) as H.
    unfold LineParserCutoff.parseBibtex.
    destruct (existsb headerWithoutBrace (split "010" bibtex)).
    + rewrite H. by split.
    + destruct H as [[entries cur] ->]. simpl. split; discriminate.
Qed.

Lemma cutoff_step_keeps_keys (currentYear : Z) (line : string)
    (entries entries' : list (gmap string string)) (cur cur' : gmap string string) :
  LineParserCutoff.step currentYear (entries, cur) line = Ok (entries', cur') ->
  hasKeys cur = true \/ opensEntry line = true -> hasKeys cur' = true.
Proof.
  unfold LineParserCutoff.step, opensEntry.
  destruct (startsWith "@" (trim line)) eqn:Hat.
  - destruct (includes "{" (substring1 (trim line))) eqn:Hb.
    + destruct (openEntry_with_brace _ Hb) as (e & -> & He). simpl.
      by intros [= _ <-].
    + by rewrite (openEntry_without_brace _ Hb).
  - destruct (includes "=" (trim line)) eqn:Heq.
    + rewrite (line_readField_ok _ _ Heq). simpl. intros [= _ <-] [H|H];
        [by apply hasKeys_setProp|discriminate].
    + intros [= _ <-] [H|H]; [exact H|discriminate].
Qed.

Lemma cutoff_loop_keeps_keys (currentYear : Z) (lines : list string) :
  forall entries cur entries' cur',
    forEach (LineParserCutoff.step currentYear) lines (entries, cur)
    = Ok (entries', cur') ->
    hasKeys cur = true \/ existsb opensEntry lines = true -> hasKeys cur' = true.
Proof.
  induction lines as [|line lines IH]; intros entries cur entries' cur'.
  - simpl. intros [= _ <-] [H|H]; [exact H|discriminate].
  - cbn [forEach existsb].
    destruct (LineParserCutoff.step currentYear (entries, cur) line)
      as [[entries1 cur1]|] eqn:Hstep; [|intros H; discriminate H].
    change (forEach (LineParserCutoff.step currentYear) lines (entries1, cur1)
            = Ok (entries', cur') ->
            hasKeys cur = true \/ opensEntry line || existsb opensEntry lines = true ->
            hasKeys cur' = true).
    intros Hloop Hkeys. apply (IH _ _ _ _ Hloop).
    destruct (opensEntry line) eqn:Hopen; simpl in Hkeys.
    + left. apply (cutoff_step_keeps_keys _ _ _ _ _ _ Hstep). by right.
    + destruct Hkeys as [H|H]; [|by right].
      left. apply (cutoff_step_keeps_keys _ _ _ _ _ _ Hstep). by left.
Qed.

(** X16.  The renderer of the copy with the cutoff throws exactly when
    some record of the array has no author. *)
Theorem cutoff_renderer_throws_exactly_without_author
    (entries : list (gmap string string)) :
  LineParserCutoff.renderHTML entries = Throw TypeError
  <-> exists e, In e entries /\ getProp e "author" = None.
Proof.
  assert (Hfmt : forall e, LineParserCutoff.formatEntry e = Throw TypeError
                           <-> getProp e "author" = None).
  { intros e. unfold LineParserCutoff.formatEntry.
    destruct (getProp e "author"); simpl; split; congruence. }
  unfold LineParserCutoff.renderHTML.
  destruct (mapArray LineParserCutoff.formatEntry
              (sort LineParserCutoff.compareYears entries)) as [blocks|[]] eqn:Hmap;
    simpl.
  - split; [discriminate|]. intros (e & Hin & He).
    assert (H : @Ok (list string) blocks = Throw TypeError).
    { rewrite <- Hmap. apply mapArray_throws. exists e. split; [|by apply Hfmt].
      eapply Permutation_in; [symmetry; apply sort_perm|exact Hin]. }
    discriminate H.
  - split; [|reflexivity]. intros _.
    apply mapArray_throws in Hmap as (e & Hin & He). exists e.
    split; [|by apply Hfmt].
    eapply Permutation_in; [apply sort_perm|exact Hin].
Qed.

(** X17.  A value stored by the line-based parsers holds no brace and no
    comma: every comma inside the value is lost with the one after it. *)
Theorem line_parser_values_lose_commas (cur : gmap string string) (line : string) :
  includes "=" line = true ->
  exists value,
    LineParser.readField cur line = Ok (setProp cur (trim (beforeFirst "=" line)) value)
    /\ forall c, inClass "{}," c = true -> includes c value = false.
Proof.
  intros H. rewrite (line_readField_ok _ _ H). eexists. split; [reflexivity|].
  intros c Hc. by apply removeAll_excludes.
Qed.

Lemma line_parser_values_lose_commas_witness :
  exists value,
    LineParser.readField ∅ "author = {Doe, J. and Roe, K.},"
    = Ok (setProp ∅ (trim (beforeFirst "=" "author = {Doe, J. and Roe, K.},")) value)
    /\ forall c, inClass "{}," c = true -> includes c value = false.
Proof.
  apply (line_parser_values_lose_commas ∅ "author = {Doe, J. and Roe, K.},").
  reflexivity.
Defined.

End MoreOfTheLineParsers.

(** *** The avatar and the QR code *)

Section Toggle.
Import IndexPage.

Lemma toggle_block : toggleQRCode (Images "block" "none") = Images "none" "block".
Proof. reflexivity. Qed.

Lemma toggle_none : toggleQRCode (Images "none" "block") = Images "block" "none".
Proof. reflexivity. Qed.

Lemma toggle_result (page : images) :
  toggleQRCode page = Images "block" "none"
  \/ toggleQRCode page = Images "none" "block".
Proof. unfold toggleQRCode. destruct (String.eqb (qrcode page) "none"); auto. Qed.

(** X18.  After any click exactly one of the two images is shown; from
    the page as loaded, an odd number of clicks shows the QR code and an
    even number the avatar; and from any state two further clicks after a
    first one come back to the same display. *)
Theorem one_image_is_shown :
  (forall n, clicks (S n) initial
             = if Nat.odd (S n) then Images "block" "none" else Images "none" "block")
  /\ (forall page,
         toggleQRCode (toggleQRCode (toggleQRCode page)) = toggleQRCode page)
  /\ (forall n page,
         let shown := clicks (S n) page in
         (qrcode shown = "none" /\ avatar shown = "block")
         \/ (qrcode shown = "block" /\ avatar shown = "none")).
Proof.
  split; [|split].
  - induction n as [|n IH]; [reflexivity|].
    change (clicks (S (S n)) initial) with (toggleQRCode (clicks (S n) initial)).
    rewrite IH. rewrite (Nat.odd_succ (S n)), <- Nat.negb_odd.
    by destruct (Nat.odd (S n)).
  - intros page. by destruct (toggle_result page) as [-> | ->].
  - intros n page. simpl. by destruct (toggle_result (clicks n page)) as [-> | ->]; auto.
Qed.

End Toggle.

(** *** src/bibliography.js keeps every entry *)

Section LineParserKeepsAll.

Lemma line_step_counts (line : string)
    (entries entries' : list (gmap string string)) (cur cur' : gmap string string) :
  LineParser.step (entries, cur) line = Ok (entries', cur') ->
  hasKeys cur = true ->
  hasKeys cur' = true
  /\ length entries' = (length entries + if opensEntry line then 1 else 0)%nat.
Proof.
  unfold LineParser.step, opensEntry. intros Hstep Hkeys. rewrite Hkeys in Hstep.
  destruct (startsWith "@" (trim line)) eqn:Hat.
  - destruct (includes "{" (substring1 (trim line))) eqn:Hb.
    + destruct (openEntry_with_brace _ Hb) as (e & He & Hk).
      rewrite He in Hstep. simpl in Hstep. injection Hstep as <- <-.
      split; [exact Hk|]. by rewrite length_app.
    + by rewrite (openEntry_without_brace _ Hb) in Hstep.
  - destruct (includes "=" (trim line)) eqn:Heq.
    + rewrite (line_readField_ok _ _ Heq) in Hstep. simpl in Hstep.
      injection Hstep as <- <-. split; [by apply hasKeys_setProp|lia].
    + injection Hstep as <- <-. split; [exact Hkeys|lia].
Qed.

Lemma line_loop_counts (lines : list string) :
  forall entries cur entries' cur',
    forEach LineParser.step lines (entries, cur) = Ok (entries', cur') ->
    hasKeys cur = true ->
    hasKeys cur' = true
    /\ length entries'
       = (length entries + length (List.filter opensEntry lines))%nat.
Proof.
  induction lines as [|line lines IH]; intros entries cur entries' cur'.
  - simpl. intros [= <- <-] H. split; [exact H|lia].
  - cbn [forEach List.filter].
    destruct (LineParser.step (entries, cur) line)
      as [[entries1 cur1]|] eqn:Hstep; [|intros H; discriminate H].
    change (forEach LineParser.step lines (entries1, cur1) = Ok (entries', cur') ->
            hasKeys cur = true ->
            hasKeys cur' = true
            /\ length entries'
               = (length entries
                  + length (if opensEntry line
                            then line :: List.filter opensEntry lines
                            else List.filter opensEntry lines))%nat).
    intros Hloop Hkeys.
    destruct (line_step_counts _ _ _ _ _ Hstep Hkeys) as [Hk1 Hlen1].
    destruct (IH _ _ _ _ Hloop Hk1) as [Hk Hlen]. split; [exact Hk|].
    rewrite Hlen, Hlen1. destruct (opensEntry line); simpl; lia.
Qed.

(** X19.  src/bibliography.js applies no filter: when the first line of
    the text opens an entry and the parser returns, it returns exactly one
    record for each line that opens an entry, whatever their years. *)
Theorem line_parser_keeps_every_entry
    (bibtex : string) (entries : list (gmap string string)) :
  LineParser.parseBibtex bibtex = Ok entries ->
  opensEntry (headerLine bibtex) = true ->
  length entries = length (List.filter opensEntry (split "010" bibtex)).
Proof.
  unfold LineParser.parseBibtex, headerLine. intros Hparse Hfirst.
  pose proof (split_first "010" bibtex) as Hhead.
  destruct (split "010" bibtex) as [|line lines]; [discriminate Hhead|].
  injection Hhead as ->.
  cbn [forEach] in Hparse.
  destruct (LineParser.step ([], ∅) (beforeFirst "010" bibtex))
    as [[entries1 cur1]|] eqn:Hstep; [|discriminate Hparse].
  assert (H1 : entries1 = [] /\ hasKeys cur1 = true).
  { unfold LineParser.step in Hstep. unfold opensEntry in Hfirst.
    rewrite Hfirst in Hstep.
    destruct (includes "{" (substring1 (trim (beforeFirst "010" bibtex)))) eqn:Hb.
    - destruct (openEntry_with_brace _ Hb) as (e & He & Hk).
      rewrite He in Hstep. simpl in Hstep. by injection Hstep as <- <-.
    - by rewrite (openEntry_without_brace _ Hb) in Hstep. }
  destruct H1 as [-> Hk1].
  change (forEach LineParser.step lines ([], cur1)
          ≫= (fun st => let '(entries, currentEntry) := st in
                        Ok (if hasKeys currentEntry
                            then (entries ++ [currentEntry])%list else entries))
          = Ok entries) in Hparse.
  destruct (forEach LineParser.step lines ([], cur1))
    as [[entries2 cur2]|] eqn:Hloop; [|discriminate Hparse].
  destruct (line_loop_counts _ _ _ _ _ Hloop Hk1) as [Hk2 Hlen].
  simpl in Hparse. rewrite Hk2 in Hparse. injection Hparse as <-.
  simpl. rewrite Hfirst. simpl. rewrite length_app, Hlen. simpl. lia.
Qed.

Lemma line_parser_keeps_every_entry_witness :
  length [entry2022; entry2024]
  = length (List.filter opensEntry (split "010" twoEntries)).
Proof.
  apply (line_parser_keeps_every_entry twoEntries).
  - vm_compute. reflexivity.
  - vm_compute. reflexivity.
Defined.

(** X20.  With src/bibliography.js the page ends in the error handler
    exactly when the text could not be fetched or some line opens an entry
    without an opening brace; its renderer never throws. *)
Theorem line_parser_page_outcome (response : option string) :
  LineParser.main response = ErrorLogged
  <-> response = None
      \/ exists bibtex, response = Some bibtex
                        /\ existsb headerWithoutBrace (split "010" bibtex) = true.
Proof.
  destruct response as [bibtex|]; simpl; [|split; auto].
  pose proof (forEach_throws LineParser.step headerWithoutBrace
                line_step_throws line_step_ok (split "010" bibtex) ([], ∅)) as H.
  unfold LineParser.parseBibtex.
  destruct (existsb headerWithoutBrace (split "010" bibtex)) eqn:Hbad.
  - rewrite H. simpl. split; [|reflexivity]. intros _. right. eauto.
  - destruct H as [[entries cur] ->]. simpl. split; [discriminate|].
    intros [H|(b & [= <-] & H)]; [discriminate H|congruence].
Qed.

End LineParserKeepsAll.

(** ** The order of the rendered records *)

Section WholeYears.
Import SplitParser.

Lemma compareYears_whole (a b : gmap string string) :
  wholeYear a -> wholeYear b ->
  sortsAfter compareYears a b = (yearNumber a <? yearNumber b)%Z.
Proof.
  unfold wholeYear, yearNumber, sortsAfter, compareYears.
  destruct (yearOrZero a) as [|qa| |]; try tauto.
  destruct (yearOrZero b) as [|qb| |]; try tauto.
  remember (Qfloor qa) as za. remember (Qfloor qb) as zb.
  intros [Ha _] [Hb _]. simpl sub.
  rewrite (gt_zero (qb - qa) (zb - za)).
  - destruct (Z.ltb_spec 0 (zb - za)), (Z.ltb_spec za zb); try reflexivity; lia.
  - rewrite Ha, Hb. unfold Zminus. rewrite inject_Z_plus, inject_Z_opp.
    reflexivity.
Qed.

(** C2, as amended.  When every record has a year that is missing or a
    whole number, the blocks of the fragment follow the records in
    descending order of year, a missing year counting as 0, and records
    with the same year, or with none, keep the order they had in the
    input.  In particular a record of 2022 followed by one of 2024 is
    rendered 2024 first. *)
Theorem whole_years_render_in_descending_stable_order :
  (forall entries : list (gmap string string),
      Forall wholeYear entries ->
      exists html shown blocks,
        renderHTML entries = Ok (html, shown)
        /\ mapArray formatEntry shown = Ok blocks
        /\ html = join blocks
        /\ Permutation shown entries
        /\ descendingBy yearNumber shown
        /\ forall n, withKey yearNumber n shown = withKey yearNumber n entries)
  /\ (forall a b : gmap string string,
         getProp a "year" = Some "2022" ->
         getProp b "year" = Some "2024" ->
         exists blockA blockB,
           formatEntry a = Ok blockA /\ formatEntry b = Ok blockB
           /\ renderHTML [a; b] = Ok (join [blockB; blockA], [b; a])).
Proof.
  split.
  - intros entries Hwhole.
    destruct (renderHTML_blocks entries) as (blocks & Hblocks & Hrender).
    eexists _, _, blocks. split; [exact Hrender|]. split; [exact Hblocks|].
    split; [reflexivity|]. split; [apply sort_perm|]. split.
    + apply (sort_descending compareYears yearNumber wholeYear compareYears_whole).
      exact Hwhole.
    + intros n.
      apply (sort_stable compareYears yearNumber wholeYear compareYears_whole).
      exact Hwhole.
  - intros a b Ha Hb.
    assert (Hya : yearOrZero a = StringToNumber "2022")
      by (unfold yearOrZero; by rewrite Ha).
    assert (Hyb : yearOrZero b = StringToNumber "2024")
      by (unfold yearOrZero; by rewrite Hb).
    assert (Hwa : wholeYear a)
      by (unfold wholeYear; rewrite Hya; vm_compute; split; [reflexivity|discriminate]).
    assert (Hwb : wholeYear b)
      by (unfold wholeYear; rewrite Hyb; vm_compute; split; [reflexivity|discriminate]).
    destruct (formatEntry_total a) as [blockA HA].
    destruct (formatEntry_total b) as [blockB HB].
    exists blockA, blockB. split; [exact HA|]. split; [exact HB|].
    unfold renderHTML.
    assert (Hsort : sort compareYears [a; b] = [b; a]).
    { unfold sort. simpl. rewrite (compareYears_whole a b Hwa Hwb).
      unfold yearNumber. rewrite Hya, Hyb. reflexivity. }
    rewrite Hsort. simpl. rewrite HB. simpl. rewrite HA. reflexivity.
Qed.

Lemma whole_years_render_in_descending_stable_order_witness :
  exists html shown blocks,
    renderHTML [entry2022; yearOnly "0x7EA"; entry2024; yearOnly " 2.022e3 "; ∅]
    = Ok (html, shown)
    /\ mapArray formatEntry shown = Ok blocks
    /\ html = join blocks
    /\ Permutation shown [entry2022; yearOnly "0x7EA"; entry2024; yearOnly " 2.022e3 "; ∅]
    /\ descendingBy yearNumber shown
    /\ forall n, withKey yearNumber n shown
                 = withKey yearNumber n
                     [entry2022; yearOnly "0x7EA"; entry2024; yearOnly " 2.022e3 "; ∅].
Proof.
  apply (proj1 whole_years_render_in_descending_stable_order).
  repeat constructor; vm_compute; try reflexivity; discriminate.
Defined.

Lemma not_descending_around {A : Type} (key : A -> Z) (a b c : A) :
  (key a < key c)%Z -> ~ descendingBy key [a; b; c].
Proof.
  intros Hlt Hsorted. inversion Hsorted as [|? ? _ Hall]; subst.
  inversion Hall as [|? ? _ Hrest]; subst. inversion Hrest; subst. lia.
Qed.

(** C2, as stated, fails when a year is not a number.  The parser returns
    the three entries of [undated] (the filter reads 2025 at the start of
    the second year), and the renderer leaves them in that order: the
    comparison with the second year is [NaN], and the record of 2022 is
    rendered before the record of 2024. *)
Lemma year_that_is_not_a_number_breaks_the_order :
  parseBibtex 2024 undated = Ok [entry2022; entryUndated; entry2024]
  /\ (exists html,
         renderHTML [entry2022; entryUndated; entry2024]
         = Ok (html, [entry2022; entryUndated; entry2024]))
  /\ forall key : gmap string string -> Z,
       (key entry2022 < key entry2024)%Z ->
       ~ descendingBy key [entry2022; entryUndated; entry2024].
Proof.
  split; [vm_compute; reflexivity|]. split.
  - destruct (renderHTML_blocks [entry2022; entryUndated; entry2024])
      as (blocks & _ & ->).
    assert (Hsort : sort compareYears [entry2022; entryUndated; entry2024]
                    = [entry2022; entryUndated; entry2024])
      by (vm_compute; reflexivity).
    rewrite Hsort. eexists. reflexivity.
  - intros key. apply not_descending_around.
Qed.
End WholeYears.

(** ** The unguarded accesses of the line-based copies *)

Section Unguarded.

(** C3.  The line-based copies do throw.  On a line that opens an entry
    without an opening brace, [key] is [undefined] and [key.trim()] throws
    in both parsers (src/bibliography.js line 36, part_000 line 164), and
    the page ends in the error handler; on a record without an author,
    [entry.author.replace] throws in the renderer of the copy with the
    cutoff (part_000 line 191), for a record that its own parser
    returns. *)
Theorem unguarded_accesses_throw :
  LineParser.parseBibtex "@article" = Throw TypeError
  /\ LineParser.main (Some "@article") = ErrorLogged
  /\ (forall currentYear,
         LineParserCutoff.parseBibtex currentYear "@article" = Throw TypeError
         /\ LineParserCutoff.main currentYear (Some "@article") = ErrorLogged)
  /\ LineParserCutoff.renderHTML [yearOnly "2024"] = Throw TypeError
  /\ exists entry,
       LineParserCutoff.parseBibtex 2024 ("@misc{k," +:+ nl +:+ "year = {2024},")
       = Ok [entry]
       /\ LineParserCutoff.renderHTML [entry] = Throw TypeError
       /\ LineParserCutoff.main 2024 (Some ("@misc{k," +:+ nl +:+ "year = {2024},"))
          = ErrorLogged.
Proof.
  split; [vm_compute; reflexivity|]. split; [vm_compute; reflexivity|].
  split.
  - intros currentYear.
    assert (H : LineParserCutoff.parseBibtex currentYear "@article" = Throw TypeError).
    { unfold LineParserCutoff.parseBibtex.
      change (split "010" "@article") with ["@article"]. cbn [forEach].
      by rewrite cutoff_step_throws. }
    split; [exact H|]. unfold LineParserCutoff.main. by rewrite H.
  - split; [vm_compute; reflexivity|].
    eexists. repeat split; vm_compute; reflexivity.
Qed.
End Unguarded.

(** ** A header without an opening brace *)

Section HeaderWithoutBrace.
Import SplitParser.

Lemma forEach_readField_key (lines : list string) :
  forall (entry entry' : gmap string string) (k : string),
    forEach readField lines entry = Ok entry' ->
    getProp entry "key" = Some k ->
    getProp entry' "key" = Some (keyAfter lines k).
Proof.
  induction lines as [|line lines IH]; intros entry entry' k.
  - simpl. by intros [= <-].
  - cbn [forEach]. destruct (readField_total entry line) as [e1 H1].
    rewrite H1. simpl mbind. intros Hloop Hk.
    unfold keyAfter. cbn [fold_left]. fold (keyAfter lines).
    apply (IH _ _ _ Hloop). unfold fieldName.
    destruct (includes "=" (trim line)) eqn:Hinc.
    + rewrite (readField_assigns _ _ Hinc) in H1. injection H1 as <-.
      fold (fieldValue line).
      destruct (String.eqb_spec (toLowerCase (trim (beforeFirst "=" (trim line)))) "key")
        as [->|Hne].
      * by apply setProp_same.
      * rewrite setProp_other by congruence. exact Hk.
    + rewrite (readField_skips _ _ Hinc) in H1. by injection H1 as <-.
Qed.

Lemma keyAfter_without_key_field (lines : list string) (k : string) :
  Forall (fun line => fieldName line <> Some "key") lines -> keyAfter lines k = k.
Proof.
  intros H. revert k. induction H as [|line lines Hl _ IH]; intros k; [reflexivity|].
  unfold keyAfter. cbn [fold_left]. fold (keyAfter lines). rewrite IH.
  destruct (fieldName line) as [n|]; [|reflexivity].
  destruct (String.eqb_spec n "key") as [->|]; [contradiction|reflexivity].
Qed.

Lemma segments_around (a raw b : string) :
  includes "@" raw = false ->
  rawEntries (a +:+ String "@" (raw +:+ String "@" b))
  = (rawEntries a ++ raw :: rawEntries (String "@" b))%list.
Proof.
  intros Hraw. rewrite rawEntries_app. f_equal.
  unfold rawEntries. simpl. by rewrite split_app, (split_no_separator _ _ Hraw).
Qed.

(** C4, as amended.  In the splitting parser a segment whose first line
    has no opening brace is parsed without an error, and the key of its
    record is the empty string unless a body line of the segment is
    itself a field named [key], whose value then replaces it.  The
    segments before and after it are processed as they are without it:
    the entries of the whole text are those of what precedes, the record
    of the segment if it is recent, and those of what follows. *)
Theorem header_without_brace_gives_empty_key (raw : string) :
  includes "{" (headerLine raw) = false ->
  includes "@" raw = false ->
  exists entry,
    parseEntry raw = Ok entry
    /\ getProp entry "key" = Some (keyAfter (bodyLines raw) EmptyString)
    /\ (Forall (fun line => fieldName line <> Some "key") (bodyLines raw) ->
        getProp entry "key" = Some EmptyString)
    /\ forall (currentYear : Z) (a b : string),
         exists ea eb,
           parseBibtex currentYear a = Ok ea
           /\ parseBibtex currentYear (String "@" b) = Ok eb
           /\ parseBibtex currentYear (a +:+ String "@" (raw +:+ String "@" b))
              = Ok (ea ++ (if recent (currentYear - 3) entry then [entry] else [])
                       ++ eb)%list.
Proof.
  intros Hbrace Hraw.
  destruct (parseEntry_total raw) as [entry Hentry]. exists entry.
  split; [exact Hentry|].
  assert (Hkey : getProp entry "key" = Some (keyAfter (bodyLines raw) EmptyString)).
  { pose proof Hentry as H. unfold parseEntry in H. rewrite split_first in H.
    fold (headerLine raw) in H. rewrite (entryOfHeader_no_brace _ Hbrace) in H.
    simpl in H. apply (forEach_readField_key _ _ _ _ H).
    unfold getProp. by rewrite lookup_insert_eq. }
  split; [exact Hkey|]. split.
  - intros Hbody. by rewrite Hkey, keyAfter_without_key_field.
  - intros currentYear a b.
    destruct (parseBibtex_filter currentYear a) as (ea & Ha & ->).
    destruct (parseBibtex_filter currentYear (String "@" b)) as (eb & Hb & ->).
    eexists _, _. split; [reflexivity|]. split; [reflexivity|].
    rewrite (parseBibtex_segments currentYear _ (ea ++ entry :: eb)%list).
    + rewrite List.filter_app. simpl.
      by destruct (recent (currentYear - 3) entry).
    + rewrite (segments_around _ _ _ Hraw).
      apply Forall2_app; [exact Ha|]. by constructor.
Qed.

Lemma header_without_brace_gives_empty_key_witness :
  exists entry,
    parseEntry miscSegment = Ok entry
    /\ getProp entry "key" = Some (keyAfter (bodyLines miscSegment) EmptyString)
    /\ (Forall (fun line => fieldName line <> Some "key") (bodyLines miscSegment) ->
        getProp entry "key" = Some EmptyString)
    /\ forall (currentYear : Z) (a b : string),
         exists ea eb,
           parseBibtex currentYear a = Ok ea
           /\ parseBibtex currentYear (String "@" b) = Ok eb
           /\ parseBibtex currentYear (a +:+ String "@" (miscSegment +:+ String "@" b))
              = Ok (ea ++ (if recent (currentYear - 3) entry then [entry] else [])
                       ++ eb)%list.
Proof.
  apply (header_without_brace_gives_empty_key miscSegment); reflexivity.
Defined.

(** C4, as stated, fails when the segment has a body line named [key]:
    the record of [misc] followed by the line [key = x] has the key
    [x]. *)
Lemma header_without_brace_key_replaced :
  ~ (forall raw : string,
        includes "{" (headerLine raw) = false ->
        exists entry, parseEntry raw = Ok entry
                      /\ getProp entry "key" = Some EmptyString).
Proof.
  intros H.
  destruct (H ("misc" +:+ nl +:+ "key = x") eq_refl) as (entry & Hentry & Hkey).
  assert (E : (e ← parseEntry ("misc" +:+ nl +:+ "key = x"); Ok (getProp e "key"))
              = Ok (Some "x")) by (vm_compute; reflexivity).
  rewrite Hentry in E. simpl in E. congruence.
Qed.
End HeaderWithoutBrace.

(** ** The last record of the line-based parser with the cutoff *)

Section LastRecord.

Lemma forEach_app_inv {S A : Type} (body : S -> A -> result S) (xs ys : list A) :
  forall s s2,
    forEach body (xs ++ ys) s = Ok s2 ->
    exists s1, forEach body xs s = Ok s1 /\ forEach body ys s1 = Ok s2.
Proof.
  induction xs as [|x xs IH]; intros s s2.
  - simpl. eauto.
  - cbn [app forEach]. destruct (body s x) as [s'|]; [|intros H; discriminate H].
    simpl mbind. apply IH.
Qed.

Lemma cutoff_step_field (currentYear : Z) (line : string)
    (entries : list (gmap string string)) (cur : gmap string string) :
  opensEntry line = false ->
  LineParserCutoff.step currentYear (entries, cur) line
  = Ok (entries, lineField cur line).
Proof.
  unfold opensEntry, LineParserCutoff.step, lineField. intros ->.
  destruct (includes "=" (trim line)) eqn:Heq; [|reflexivity].
  by rewrite (line_readField_ok _ _ Heq).
Qed.

Lemma cutoff_step_opens (currentYear : Z) (line : string)
    (entries : list (gmap string string)) (cur : gmap string string) :
  opensEntry line = true ->
  LineParserCutoff.step currentYear (entries, cur) line
  = (e ← LineParser.openEntry (trim line);
     Ok (if hasKeys cur && gt (ToNumber (getProp cur "year")) (ofZ (currentYear - 3))
         then (entries ++ [cur])%list else entries, e)).
Proof.
  unfold opensEntry, LineParserCutoff.step. by intros ->.
Qed.

Lemma cutoff_loop_fields (currentYear : Z) (lines : list string) :
  existsb opensEntry lines = false ->
  forall entries cur,
    forEach (LineParserCutoff.step currentYear) lines (entries, cur)
    = Ok (entries, fold_left lineField lines cur).
Proof.
  induction lines as [|line lines IH]; [reflexivity|].
  cbn [existsb]. intros [Hline Hrest]%orb_false_elim entries cur.
  cbn [forEach fold_left]. rewrite (cutoff_step_field _ _ _ _ Hline).
  simpl mbind. by apply IH.
Qed.

Lemma hasKeys_lineField (cur : gmap string string) (line : string) :
  hasKeys cur = true -> hasKeys (lineField cur line) = true.
Proof.
  intros H. unfold lineField. destruct (includes "=" (trim line)); [|exact H].
  by apply hasKeys_setProp.
Qed.

Lemma hasKeys_fields (lines : list string) :
  forall cur, hasKeys cur = true -> hasKeys (fold_left lineField lines cur) = true.
Proof.
  induction lines as [|line lines IH]; intros cur H; [exact H|].
  simpl. by apply IH, hasKeys_lineField.
Qed.

(** X15.  In the copy with the cutoff no cutoff is applied to the last
    entry of the text.  When the parser returns, the last record of its
    result is the record opened by the last line that opens an entry,
    with the fields of the lines after it, whatever year they give it. *)
Theorem cutoff_parser_always_returns_last_record
    (currentYear : Z) (bibtex : string) (before after : list string) (line : string)
    (entries : list (gmap string string)) :
  split "010" bibtex = (before ++ line :: after)%list ->
  opensEntry line = true ->
  existsb opensEntry after = false ->
  LineParserCutoff.parseBibtex currentYear bibtex = Ok entries ->
  exists front opened,
    LineParser.openEntry (trim line) = Ok opened
    /\ entries = (front ++ [fold_left lineField after opened])%list.
Proof.
  intros Hsplit Hline Hafter. unfold LineParserCutoff.parseBibtex. rewrite Hsplit.
  destruct (forEach (LineParserCutoff.step currentYear) (before ++ line :: after) ([], ∅))
    as [[front cur]|] eqn:Hloop; [|intros H; discriminate H].
  apply forEach_app_inv in Hloop as ([entries1 cur1] & _ & Hloop).
  cbn [forEach] in Hloop. rewrite (cutoff_step_opens _ _ _ _ Hline) in Hloop.
  destruct (includes "{" (substring1 (trim line))) eqn:Hb.
  - destruct (openEntry_with_brace _ Hb) as (opened & Hopened & Hkeys).
    rewrite Hopened in Hloop. simpl mbind in Hloop.
    rewrite (cutoff_loop_fields _ _ Hafter) in Hloop. injection Hloop as <- <-.
    simpl mbind. rewrite (hasKeys_fields _ _ Hkeys). intros [= <-].
    eexists _, opened. split; [exact Hopened|reflexivity].
  - rewrite (openEntry_without_brace _ Hb) in Hloop. discriminate Hloop.
Qed.

Lemma cutoff_parser_always_returns_last_record_witness :
  exists (front : list (gmap string string)) (opened : gmap string string),
    LineParser.openEntry (trim "@a{k,") = Ok opened
    /\ [<["year" := "1900"]> (<["key" := "k"]> (<["type" := "a"]> ∅))]
       = (front ++ [fold_left lineField ["year = {1900},"] opened])%list.
Proof.
  apply (cutoff_parser_always_returns_last_record 2024
           ("@a{k," +:+ nl +:+ "year = {1900},") [] ["year = {1900},"] "@a{k,").
  - vm_compute. reflexivity.
  - vm_compute. reflexivity.
  - vm_compute. reflexivity.
  - vm_compute. reflexivity.
Defined.
End LastRecord.
